(** * The matching engine of [backend/ai/matcher.py]

    A shallow embedding of [MatchingEngine]: profile construction, the six
    factor scorers, the weighted aggregate with its modifiers, ranking and
    filtering.

    Modelling choices.
    - Opportunities and profiles are Python dicts with string keys: finite
      maps from [string] to dynamically typed values.  Operations that raise
      in Python ([TypeError], [KeyError], ...) raise in the model.
    - Python floats are exact rationals extended with [nan] and the two
      infinities; rounding is not modelled.  Integers are the finite floats
      with an integral value.
    - [SentenceTransformer.encode] and the square root inside
      [np.linalg.norm] are external: parameters of the development.
    - [rank_opportunities] writes into the dicts it is given, so the ranker
      runs over a store of dict objects and lists of references into it. *)

From Stdlib Require Import QArith Qabs Lqa Lia ZArith List Ascii String.
From stdpp Require Import base option list sorting gmap strings fin_maps.

Local Open Scope Q_scope.

(** ** Exceptions *)

Inductive exn : Set :=
| TypeError
| AttributeError
| KeyError
| IndexError
| ValueError
| ZeroDivisionError
| InvalidReference.

Inductive result (A : Type) : Type :=
| Ok (a : A)
| Raise (e : exn).

Arguments Ok {A} a.
Arguments Raise {A} e.

Definition result_bind {A B : Type} (f : A → result B) (m : result A)
  : result B :=
  match m with
  | Ok a => f a
  | Raise e => Raise e
  end.

#[export] Instance result_mbind : MBind result := @result_bind.
#[export] Instance result_mret : MRet result := @Ok.

Fixpoint mapR {A B : Type} (f : A → result B) (l : list A)
  : result (list B) :=
  match l with
  | [] => Ok []
  | x :: l' => y ← f x; ys ← mapR f l'; Ok (y :: ys)
  end.

(** ** Floats *)

Inductive pyfloat : Type :=
| NaN
| PInf
| NInf
| Fin (q : Q).

Definition Qsgn_pos (q : Q) : bool := negb (Qle_bool q 0).
Definition Qsgn_neg (q : Q) : bool := negb (Qle_bool 0 q).

(** [x < y] on floats; every comparison with [nan] is false. *)
Definition fltb (x y : pyfloat) : bool :=
  match x, y with
  | NaN, _ | _, NaN => false
  | PInf, _ => false
  | _, NInf => false
  | NInf, _ => true
  | _, PInf => true
  | Fin a, Fin b => negb (Qle_bool b a)
  end.

(** [x == y] on floats. *)
Definition feqb (x y : pyfloat) : bool :=
  match x, y with
  | PInf, PInf | NInf, NInf => true
  | Fin a, Fin b => Qeq_bool a b
  | _, _ => false
  end.

(** [x <= y] on floats. *)
Definition fleb (x y : pyfloat) : bool :=
  match x, y with
  | NaN, _ | _, NaN => false
  | NInf, _ => true
  | _, PInf => true
  | PInf, _ => false
  | _, NInf => false
  | Fin a, Fin b => Qle_bool a b
  end.

Definition fadd (x y : pyfloat) : pyfloat :=
  match x, y with
  | NaN, _ | _, NaN => NaN
  | PInf, NInf | NInf, PInf => NaN
  | PInf, _ | _, PInf => PInf
  | NInf, _ | _, NInf => NInf
  | Fin a, Fin b => Fin (a + b)
  end.

Definition finf_mul (pos : bool) (q : Q) : pyfloat :=
  if Qsgn_pos q then (if pos then PInf else NInf)
  else if Qsgn_neg q then (if pos then NInf else PInf)
  else NaN.

Definition fmul (x y : pyfloat) : pyfloat :=
  match x, y with
  | NaN, _ | _, NaN => NaN
  | PInf, PInf | NInf, NInf => PInf
  | PInf, NInf | NInf, PInf => NInf
  | PInf, Fin q | Fin q, PInf => finf_mul true q
  | NInf, Fin q | Fin q, NInf => finf_mul false q
  | Fin a, Fin b => Fin (a * b)
  end.

(** Division of numpy scalars: a zero divisor gives [nan] or an infinity
    (with a warning), never an exception. *)
Definition np_div (x y : pyfloat) : pyfloat :=
  match x, y with
  | NaN, _ | _, NaN => NaN
  | Fin a, Fin b =>
      if Qeq_bool b 0 then finf_mul true a else Fin (a / b)
  | Fin _, _ => Fin 0
  | _, Fin b => fmul x (if Qsgn_neg b then NInf else PInf)
  | _, _ => NaN
  end.

(** [a / b] on two integers. *)
Definition py_truediv (a b : Z) : result pyfloat :=
  if (b =? 0)%Z then Raise ZeroDivisionError
  else Ok (Fin (inject_Z a / inject_Z b)).

(** The builtins [max(a, b)] and [min(a, b)]: the first argument is kept
    unless the second is strictly better. *)
Definition py_max (a b : pyfloat) : pyfloat := if fltb a b then b else a.
Definition py_min (a b : pyfloat) : pyfloat := if fltb b a then b else a.

(** [sum(xs)], a left fold from the integer 0. *)
Definition py_sum (xs : list pyfloat) : pyfloat := fold_left fadd xs (Fin 0).

(** ** Values *)

#[warnings="-register-all"]
Inductive value : Type :=
| VNone
| VBool (b : bool)
| VNum (x : pyfloat)
| VStr (s : string)
| VList (l : list value)
| VArr (v : list Q).

Abbreviation dict := (gmap string value).

(** ** Strings *)

Local Open Scope string_scope.

(** [str.lower()] on ASCII letters; other characters are left as they are. *)
Definition lower_ascii (c : ascii) : ascii :=
  let n := N_of_ascii c in
  if ((65 <=? n) && (n <=? 90))%N then ascii_of_N (n + 32) else c.

Fixpoint lower (s : string) : string :=
  match s with
  | EmptyString => EmptyString
  | String c s' => String (lower_ascii c) (lower s')
  end.

(** [needle in hay] for two strings. *)
Fixpoint str_contains (needle hay : string) : bool :=
  String.prefix needle hay ||
  match hay with
  | EmptyString => false
  | String _ hay' => str_contains needle hay'
  end.

(** The characters of a string, as Python iterates over it. *)
Fixpoint chars (s : string) : list string :=
  match s with
  | EmptyString => []
  | String c s' => String c EmptyString :: chars s'
  end.

(** ** Dynamically typed operations *)

(** Truth value of an object.  An array has one only when it holds a single
    element. *)
Definition py_truthy (v : value) : result bool :=
  match v with
  | VNone => Ok false
  | VBool b => Ok b
  | VNum (Fin q) => Ok (negb (Qeq_bool q 0))
  | VNum _ => Ok true
  | VStr s => Ok (negb (String.eqb s ""))
  | VList l => Ok (negb (bool_decide (l = [])))
  | VArr [x] => Ok (negb (Qeq_bool x 0))
  | VArr _ => Raise ValueError
  end.

(** [d.get(k)], [d.get(k, default)] and [d[k]]. *)
Definition py_get (d : dict) (k : string) : value := default VNone (d !! k).
Definition py_get_default (d : dict) (k : string) (dflt : value) : value :=
  default dflt (d !! k).
Definition py_index (d : dict) (k : string) : result value :=
  match d !! k with
  | Some v => Ok v
  | None => Raise KeyError
  end.

(** [a or b] as a value, and [a and b] used as a condition. *)
Definition py_or (a b : value) : result value :=
  t ← py_truthy a; Ok (if t : bool then a else b).
Definition py_and_cond (a b : value) : result bool :=
  t ← py_truthy a; if t : bool then py_truthy b else Ok false.

Definition is_none (v : value) : bool :=
  match v with VNone => true | _ => false end.

(** [v.lower()]: only strings have the method. *)
Definition py_lower (v : value) : result string :=
  match v with
  | VStr s => Ok (lower s)
  | _ => Raise AttributeError
  end.

(** Iteration over a value ([for x in v]). *)
Definition py_iter (v : value) : result (list value) :=
  match v with
  | VList l => Ok l
  | VStr s => Ok (VStr <$> chars s)
  | VArr xs => Ok ((λ x, VNum (Fin x)) <$> xs)
  | _ => Raise TypeError
  end.

Definition as_str (v : value) : result string :=
  match v with
  | VStr s => Ok s
  | _ => Raise TypeError
  end.

(** [sep.join(v)]: [v] must be iterable and hold strings only. *)
Definition py_join (sep : string) (v : value) : result string :=
  items ← py_iter v;
  strs ← mapR as_str items;
  Ok (String.concat sep strs).

(** [s in container] for a string [s]. *)
Definition py_in (s : string) (container : value) : result bool :=
  match container with
  | VList l =>
      Ok (existsb (λ v, match v with VStr t => String.eqb s t | _ => false end) l)
  | VStr hay => Ok (str_contains s hay)
  | VArr _ => Ok false
  | _ => Raise TypeError
  end.

(** A value used in an ordering comparison with a number. *)
Definition py_num (v : value) : result pyfloat :=
  match v with
  | VNum x => Ok x
  | VBool b => Ok (Fin (if b then 1 else 0))
  | _ => Raise TypeError
  end.

Definition as_array (v : value) : result (list Q) :=
  match v with
  | VArr xs => Ok xs
  | _ => Raise TypeError
  end.

Local Close Scope string_scope.

(** ** The engine *)

Local Open Scope string_scope.

Section MatchingEngine.

(** [self.model.encode]: text to a vector. *)
Variable encode : string → list Q.

(** The square root taken by [np.linalg.norm]. *)
Variable np_sqrt : Q → Q.

(** [np.dot] of two one-dimensional arrays; the shapes must agree. *)
Fixpoint dot (u v : list Q) : Q :=
  match u, v with
  | x :: u', y :: v' => (x * y + dot u' v')%Q
  | _, _ => 0%Q
  end.

Definition np_dot (u v : list Q) : result Q :=
  if (length u =? length v)%nat then Ok (dot u v) else Raise ValueError.

Definition np_linalg_norm (v : list Q) : Q := np_sqrt (dot v v).

Definition _cosine_similarity (vec1 vec2 : list Q) : result pyfloat :=
  d ← np_dot vec1 vec2;
  Ok (np_div (Fin d)
             (fmul (Fin (np_linalg_norm vec1)) (Fin (np_linalg_norm vec2)))).

Definition create_user_profile (user_data : dict) : result dict :=
  let profile : dict :=
    <["skills" := py_get_default user_data "skills" (VList [])]>
    (<["interests" := py_get_default user_data "interests" (VList [])]>
    (<["education_level" :=
         py_get_default user_data "education" (VStr "bachelor")]>
    (<["experience_years" :=
         py_get_default user_data "experience" (VNum (Fin 0))]>
    (<["preferred_locations" :=
         py_get_default user_data "locations" (VList [])]>
    (<["preferred_types" :=
         py_get_default user_data "types"
           (VList [VStr "job"; VStr "internship"])]>
    (<["remote_only" :=
         py_get_default user_data "remote_only" (VBool false)]>
    (<["target_companies" :=
         py_get_default user_data "companies" (VList [])]>
    (<["salary_min" := py_get_default user_data "salary_min" (VNum (Fin 0))]>
    (<["keywords" := py_get_default user_data "keywords" (VList [])]>
     ∅))))))))) in
  skills ← py_index profile "skills";
  has_skills ← py_truthy skills;
  profile ←
    (if has_skills : bool then
       skills_text ← py_join ", " skills;
       Ok (<["skills_embedding" := VArr (encode skills_text)]>
             (<["skills_text" := VStr skills_text]> profile))
     else Ok profile);
  interests ← py_index profile "interests";
  has_interests ← py_truthy interests;
  if has_interests : bool then
    interests_text ← py_join ", " interests;
    Ok (<["interests_embedding" := VArr (encode interests_text)]>
          (<["interests_text" := VStr interests_text]> profile))
  else Ok profile.

Definition _match_location (opportunity user_profile : dict)
  : result pyfloat :=
  remote_only ← py_index user_profile "remote_only";
  shortcut ← py_and_cond remote_only (py_get opportunity "remote");
  if shortcut : bool then Ok (Fin 100) else
  loc ← py_or (py_get opportunity "location") (VStr "");
  opp_location ← py_lower loc;
  locations ← py_index user_profile "preferred_locations";
  items ← py_iter locations;
  preferred ← mapR py_lower items;
  if existsb (λ pref, str_contains pref opp_location) preferred
  then Ok (Fin 100) else
  remote ← py_truthy (py_get opportunity "remote");
  if remote : bool then Ok (Fin 70) else Ok (Fin 0).

Definition _match_type (opportunity user_profile : dict) : result pyfloat :=
  ty ← py_or (py_get opportunity "type") (VStr "job");
  opp_type ← py_lower ty;
  types ← py_index user_profile "preferred_types";
  member ← py_in opp_type types;
  if member : bool then Ok (Fin 100) else Ok (Fin 0).

Definition any_in (words : list string) (text : string) : bool :=
  existsb (λ word, str_contains word text) words.

Definition _match_experience (opportunity user_profile : dict)
  : result pyfloat :=
  desc ← py_or (py_get opportunity "description") (VStr "");
  description ← py_lower desc;
  joined ← py_join " " (py_get_default opportunity "requirements" (VList []));
  let requirements := lower joined in
  let combined := description ++ " " ++ requirements in
  user_exp ← py_index user_profile "experience_years";
  if any_in ["entry level"; "junior"; "internship"; "graduate"] combined
  then
    e ← py_num user_exp;
    Ok (if fleb e (Fin 2) then Fin 100 else Fin 50)
  else if any_in ["mid level"; "2-5 years"; "3+ years"] combined
  then
    e ← py_num user_exp;
    Ok (if fleb (Fin 2) e && fleb e (Fin 5) then Fin 100 else Fin 50)
  else if any_in ["senior"; "5+ years"; "lead"; "principal"] combined
  then
    e ← py_num user_exp;
    Ok (if fleb (Fin 5) e then Fin 100 else Fin 30)
  else Ok (Fin 50).

Definition _match_company (opportunity user_profile : dict)
  : result pyfloat :=
  companies ← py_index user_profile "target_companies";
  some ← py_truthy companies;
  if negb some then Ok (Fin 50) else
  company ← py_or (py_get opportunity "company") (VStr "");
  opp_company ← py_lower company;
  items ← py_iter companies;
  target_companies ← mapR py_lower items;
  if existsb (λ target, str_contains target opp_company) target_companies
  then Ok (Fin 100) else Ok (Fin 0).

Definition _match_keywords (opportunity user_profile : dict)
  : result pyfloat :=
  kws ← py_index user_profile "keywords";
  some ← py_truthy kws;
  if negb some then Ok (Fin 50) else
  skills_text ← py_join " " (py_get_default opportunity "skills" (VList []));
  text ← py_join " "
           (VList [py_get_default opportunity "title" (VStr "");
                   py_get_default opportunity "description" (VStr "");
                   VStr skills_text]);
  let opp_text := lower text in
  items ← py_iter kws;
  keywords ← mapR py_lower items;
  let matches := length (filter (λ kw, str_contains kw opp_text) keywords) in
  if bool_decide (keywords = []) then Ok (Fin 50) else
  ratio ← py_truediv (Z.of_nat matches) (Z.of_nat (length keywords));
  Ok (fmul ratio (Fin 100)).

Definition _apply_modifiers (base_score : pyfloat)
           (opportunity user_profile : dict) : result pyfloat :=
  still_open ←
    py_truthy (py_get_default opportunity "is_still_open" (VBool true));
  let score :=
    if negb still_open then fmul base_score (Fin 0.5) else base_score in
  _ ← py_and_cond (py_get opportunity "compensation")
                  (py_get user_profile "salary_min");
  Ok score.

(** Lines 85-126 of [calculate_match_score]: the two lists [scores] and
    [weights], grown factor by factor. *)
Definition skill_factor (opportunity user_profile : dict)
  : result (list pyfloat * list pyfloat) :=
  has_skills ← py_truthy (py_get opportunity "skills");
  if has_skills && negb (is_none (py_get user_profile "skills_embedding"))
  then
    skills ← py_index opportunity "skills";
    opp_skills_text ← py_join ", " skills;
    let opp_embedding := encode opp_skills_text in
    profile_embedding_value ← py_index user_profile "skills_embedding";
    profile_embedding ← as_array profile_embedding_value;
    similarity ← _cosine_similarity opp_embedding profile_embedding;
    let skill_score := py_max (Fin 0) (fmul similarity (Fin 100)) in
    Ok ([skill_score], [Fin 0.40])
  else Ok ([], []).

Definition factor_lists (opportunity user_profile : dict)
  : result (list pyfloat * list pyfloat) :=
  '(scores, weights) ← skill_factor opportunity user_profile;
  location_score ← _match_location opportunity user_profile;
  type_score ← _match_type opportunity user_profile;
  experience_score ← _match_experience opportunity user_profile;
  company_score ← _match_company opportunity user_profile;
  keyword_score ← _match_keywords opportunity user_profile;
  Ok ((scores ++ [location_score; type_score; experience_score;
                  company_score; keyword_score])%list,
      (weights ++ [Fin 0.20; Fin 0.15; Fin 0.10; Fin 0.10; Fin 0.05])%list).

(** Line 129: [sum(s * w for s, w in zip(scores, weights))]. *)
Definition weighted_total (scores weights : list pyfloat) : pyfloat :=
  py_sum (zip_with fmul scores weights).

Definition calculate_match_score (opportunity user_profile : dict)
  : result pyfloat :=
  '(scores, weights) ← factor_lists opportunity user_profile;
  let total_score := weighted_total scores weights in
  total_score ← _apply_modifiers total_score opportunity user_profile;
  Ok (py_max (Fin 0) (py_min (Fin 100) total_score)).

End MatchingEngine.

(** ** Sorting, as the builtin [sorted] does it *)

Section Sorted.
Context {A : Type}.

(** Keys are compared with [<] only. *)
Fixpoint insert_by (x : pyfloat * A) (l : list (pyfloat * A))
  : list (pyfloat * A) :=
  match l with
  | [] => [x]
  | y :: l' => if fltb y.1 x.1 then y :: insert_by x l' else x :: y :: l'
  end.

(** A stable sort into ascending order. *)
Definition stable_sort (l : list (pyfloat * A)) : list (pyfloat * A) :=
  foldr insert_by [] l.

(** [sorted(l, key=..., reverse=...)] over a list already paired with its
    keys.  With [reverse=True] the list is reversed, sorted ascending and
    reversed again, which keeps equal keys in their input order. *)
Definition py_sorted (l : list (pyfloat * A)) (reverse_flag : bool)
  : list (pyfloat * A) :=
  if reverse_flag then reverse (stable_sort (reverse l)) else stable_sort l.
End Sorted.

(** [l[:n]], also for a negative [n]. *)
Definition py_slice_to {A : Type} (l : list A) (n : Z) : list A :=
  if (0 <=? n)%Z then take (Z.to_nat n) l
  else take (length l - Z.to_nat (- n)) l.

(** ** Ranking and filtering over a store of dict objects *)

Abbreviation heap := (gmap nat dict).

Definition deref (h : heap) (ref : nat) : result dict :=
  match h !! ref with
  | Some d => Ok d
  | None => Raise InvalidReference
  end.

Fixpoint filterR {A : Type} (f : A → result bool) (l : list A)
  : result (list A) :=
  match l with
  | [] => Ok []
  | x :: l' =>
      keep ← f x; rest ← filterR f l';
      Ok (if keep : bool then x :: rest else rest)
  end.

Section Ranker.

Variable encode : string → list Q.
Variable np_sqrt : Q → Q.

(** Lines 256-257: every dict of the list gets its [match_score] written
    in place. *)
Fixpoint score_loop (opportunities : list nat) (user_profile : dict)
         (h : heap) : heap * result unit :=
  match opportunities with
  | [] => (h, Ok ())
  | opp :: rest =>
      match deref h opp with
      | Raise e => (h, Raise e)
      | Ok d =>
          match calculate_match_score encode np_sqrt d user_profile with
          | Raise e => (h, Raise e)
          | Ok s =>
              score_loop rest user_profile
                (<[opp := <["match_score" := VNum s]> d]> h)
          end
      end
  end.

(** The key function of line 260, [lambda x: x['match_score']]. *)
Definition match_score_key (h : heap) (opp : nat) : result (pyfloat * nat) :=
  d ← deref h opp;
  v ← py_index d "match_score";
  k ← py_num v;
  Ok (k, opp).

Definition rank_opportunities (opportunities : list nat)
           (user_profile : dict) (h : heap) : heap * result (list nat) :=
  let '(h', looped) := score_loop opportunities user_profile h in
  (h',
   _ ← looped;
   keyed ← mapR (match_score_key h') opportunities;
   let ranked := snd <$> py_sorted keyed true in
   (* line 262 formats ranked[0]['match_score'] for the log *)
   top ← match ranked with
         | [] => Raise IndexError
         | top :: _ => Ok top
         end;
   d ← deref h' top;
   _ ← py_index d "match_score";
   Ok ranked).

(** The condition of line 283, [opp.get('match_score', 0) >= min_score]. *)
Definition passes (h : heap) (min_score : pyfloat) (opp : nat)
  : result bool :=
  d ← deref h opp;
  s ← py_num (py_get_default d "match_score" (VNum (Fin 0)));
  Ok (fleb min_score s).

Definition filter_opportunities (h : heap) (opportunities : list nat)
           (min_score : pyfloat) (max_results : Z) : result (list nat) :=
  filtered ← filterR (passes h min_score) opportunities;
  Ok (py_slice_to filtered max_results).

End Ranker.

Local Close Scope string_scope.

(** * Vocabulary of the statements *)

(** Equality of floats up to the representation of the rational. *)
Definition feq (x y : pyfloat) : Prop :=
  match x, y with
  | NaN, NaN | PInf, PInf | NInf, NInf => True
  | Fin a, Fin b => a == b
  | _, _ => False
  end.

(** A finite score between 0 and 100. *)
Definition in_range (x : pyfloat) : Prop :=
  ∃ q : Q, x = Fin q ∧ 0 <= q ∧ q <= 100.

(** The precondition of the skill-similarity factor (line 89): the
    opportunity has a non-empty [skills] and the profile carries a
    [skills_embedding]. *)
Definition has_skills (opportunity : dict) : Prop :=
  py_truthy (py_get opportunity "skills"%string) = Ok true.

Definition has_skills_embedding (user_profile : dict) : Prop :=
  py_get user_profile "skills_embedding"%string ≠ VNone.

(** The weighted sum of the spec: fixed weights, the skill factor only when
    it is there, no renormalisation. *)
Definition weighted_sum_spec (skill : option pyfloat) (l t e c k : Q)
  : pyfloat :=
  let rest := Fin (l * 0.20 + t * 0.15 + e * 0.10 + c * 0.10 + k * 0.05) in
  match skill with
  | Some s => fadd (fmul s (Fin 0.40)) rest
  | None => rest
  end.

(** A square root that is not negative and whose square reaches at least
    four fifths of its argument.  The real root meets this with room to
    spare, and so does a correctly rounded one, which may fall below the real
    root by a rounding error. *)
Definition sqrt_tolerant (np_sqrt : Q → Q) : Prop :=
  ∀ x : Q, 0 <= x →
           0 <= np_sqrt x ∧ x <= (5 # 4) * (np_sqrt x * np_sqrt x).

(** The opportunity keys the six factor scorers read. *)
Definition factor_keys : list string :=
  ["skills"; "remote"; "location"; "type"; "description"; "requirements";
   "company"; "title"]%string.

(** Typed views of dict entries: an optional field is either missing or
    [None]. *)
Definition opt_bool_field (d : dict) (k : string) (b : bool) : Prop :=
  d !! k = Some (VBool b) ∨ (b = false ∧ (d !! k = None ∨ d !! k = Some VNone)).

Definition opt_str_field (d : dict) (k : string) (s : option string) : Prop :=
  match s with
  | Some s => d !! k = Some (VStr s)
  | None => d !! k = None ∨ d !! k = Some VNone
  end.

(** The location factor in the words of the spec. *)
Definition location_score_spec (remote_only remote : bool)
           (preferred_locations : list string) (location : option string)
  : Q :=
  if remote_only && remote then 100
  else if existsb (λ p, str_contains (lower p)
                          (lower (default ""%string location)))
                  preferred_locations then 100
  else if remote then 70
  else 0.

(** Having a finite key. *)
Definition finite_key {A : Type} (p : pyfloat * A) : Prop :=
  ∃ q : Q, p.1 = Fin q.

(** The [match_score] a record of the store carries ([nan] if none). *)
Definition match_score_of (h : heap) (ref : nat) : pyfloat :=
  match h !! ref with
  | Some d =>
      match d !! "match_score"%string with
      | Some (VNum x) => x
      | _ => NaN
      end
  | None => NaN
  end.

(** Order of keyed elements by their key. *)
Definition key_le {A : Type} : relation (pyfloat * A) :=
  λ x y, fleb x.1 y.1 = true.

(** The score a record has in the eyes of the filter: its [match_score]
    when that is a finite number, 0 when the record has none. *)
Definition stored_score (d : dict) : option Q :=
  match d !! "match_score"%string with
  | None => Some 0
  | Some (VNum (Fin q)) => Some q
  | Some _ => None
  end.

Definition score_or_zero (h : heap) (ref : nat) : Q :=
  match h !! ref with
  | Some d => default 0 (stored_score d)
  | None => 0
  end.

#[export] Instance Qle_decision (x y : Q) : Decision (x <= y) :=
  match Qlt_le_dec y x with
  | left H => right (Qlt_not_le y x H)
  | right H => left H
  end.

(** ** Well-formed inputs *)

Definition is_str (v : value) : bool :=
  match v with VStr _ => true | _ => false end.
Definition is_opt_str (v : value) : bool :=
  match v with VStr _ | VNone => true | _ => false end.
Definition is_bool (v : value) : bool :=
  match v with VBool _ => true | _ => false end.
Definition is_opt_bool (v : value) : bool :=
  match v with VBool _ | VNone => true | _ => false end.
Definition is_num (v : value) : bool :=
  match v with VNum _ => true | _ => false end.
Definition is_str_list (v : value) : bool :=
  match v with VList l => forallb is_str l | _ => false end.

(** An entry that may be missing, and one that must be there. *)
Definition field_ok (d : dict) (k : string) (p : value → bool) : bool :=
  match d !! k with Some v => p v | None => true end.
Definition field_is (d : dict) (k : string) (p : value → bool) : bool :=
  match d !! k with Some v => p v | None => false end.

Local Open Scope string_scope.

(** The raw user map of section 4.1: every key optional, of its type. *)
Definition wf_user_data (user_data : dict) : bool :=
  field_ok user_data "skills" is_str_list &&
  field_ok user_data "interests" is_str_list &&
  field_ok user_data "experience" is_num &&
  field_ok user_data "locations" is_str_list &&
  field_ok user_data "types" is_str_list &&
  field_ok user_data "remote_only" is_bool &&
  field_ok user_data "companies" is_str_list &&
  field_ok user_data "salary_min" is_num &&
  field_ok user_data "keywords" is_str_list.

(** The opportunity record of section 3: title and company are required;
    an optional field is missing or [None]. *)
Definition opportunity_record (d : dict) : bool :=
  field_is d "title" is_str &&
  field_is d "company" is_str &&
  field_ok d "type" is_opt_str &&
  field_ok d "location" is_opt_str &&
  field_ok d "remote" is_opt_bool &&
  field_ok d "description" is_opt_str &&
  field_ok d "requirements" is_str_list &&
  field_ok d "skills" is_str_list &&
  field_ok d "compensation" is_opt_str &&
  field_ok d "is_still_open" is_opt_bool.

(** What a profile built from well-formed user data looks like. *)
Definition wf_profile (encode : string → list Q) (profile : dict) : bool :=
  field_is profile "remote_only" is_bool &&
  field_is profile "preferred_locations" is_str_list &&
  field_is profile "preferred_types" is_str_list &&
  field_is profile "experience_years" is_num &&
  field_is profile "target_companies" is_str_list &&
  field_is profile "keywords" is_str_list &&
  field_is profile "salary_min" is_num &&
  match profile !! "skills_embedding" with
  | None => true
  | Some (VArr v) => (length v =? length (encode ""))%nat
  | Some _ => false
  end.

Local Close Scope string_scope.

(** The records scoring is total on: opportunity records whose description
    is a string when it is there at all. *)
Definition scorable (d : dict) : Prop :=
  opportunity_record d = true ∧ d !! "description"%string ≠ Some VNone.

(** ** Sample data *)

Local Open Scope string_scope.

(** A provider that tells two directions apart, and a square root that is
    exact on their norms. *)
Definition stub_encode (text : string) : list Q :=
  if str_contains "python" (lower text) then [1; 0] else [0; 1].

Definition stub_sqrt (x : Q) : Q := if Qle_bool x 1 then 1 else x.

Definition sample_user : dict :=
  <["skills" := VList [VStr "Python"]]>
  (<["locations" := VList [VStr "Austin"]]>
  (<["experience" := VNum (Fin 1)]>
  (<["keywords" := VList [VStr "ai"; VStr "ml"]]> ∅))).

Definition sample_profile : dict :=
  match create_user_profile stub_encode sample_user with
  | Ok profile => profile
  | Raise _ => ∅
  end.

Definition opp_austin : dict :=
  <["title" := VStr "AI Engineer"]>
  (<["company" := VStr "Acme"]>
  (<["location" := VStr "Austin, TX"]>
  (<["skills" := VList [VStr "Python"]]>
  (<["description" := VStr "junior role"]> ∅)))).

Definition opp_berlin : dict :=
  <["title" := VStr "Data Analyst"]>
  (<["company" := VStr "Globex"]>
  (<["location" := VStr "Berlin"]>
  (<["remote" := VBool true]>
  (<["description" := VStr "senior analyst"]> ∅)))).

Definition opp_closed : dict :=
  <["is_still_open" := VBool false]> opp_austin.

(** A record whose optional description is [None]. *)
Definition opp_null_description : dict :=
  <["title" := VStr "AI Engineer"]>
  (<["company" := VStr "Acme"]>
  (<["description" := VNone]> ∅)).

(** A store of three records; the first and the third are the same
    listing. *)
Definition sample_heap : heap :=
  <[0%nat := opp_berlin]> (<[1%nat := opp_austin]> (<[2%nat := opp_berlin]> ∅)).

(** A store of already scored records, one of them without a score. *)
Definition scored_heap : heap :=
  <[0%nat := <["match_score" := VNum (Fin 80)]> opp_austin]>
  (<[1%nat := <["match_score" := VNum (Fin 40)]> opp_berlin]>
  (<[2%nat := opp_closed]> ∅)).

Local Close Scope string_scope.

(** The store after ranking the three sample records. *)
Definition ranked_heap : heap :=
  fst (rank_opportunities stub_encode stub_sqrt [0; 1; 2]%nat
         sample_profile sample_heap).

(** ** The other factors, in plain terms *)

Local Open Scope string_scope.

(** The type an opportunity is matched under: missing, [None] and the empty
    string all count as a job. *)
Definition effective_type (type : option string) : string :=
  match type with
  | Some "" | None => "job"
  | Some s => s
  end.

Definition type_score_spec (type : option string) (preferred : list string)
  : Q :=
  if existsb (String.eqb (lower (effective_type type))) preferred
  then 100 else 0.

Definition company_score_spec (targets : list string)
           (company : option string) : Q :=
  match targets with
  | [] => 50
  | _ =>
      if existsb (λ t, str_contains (lower t) (lower (default "" company)))
                 targets
      then 100 else 0
  end.

(** An upper-case ASCII letter somewhere in the string. *)
Definition is_upper (c : ascii) : bool :=
  let n := N_of_ascii c in ((65 <=? n) && (n <=? 90))%N.

Fixpoint has_upper (s : string) : bool :=
  match s with
  | EmptyString => false
  | String c s' => is_upper c || has_upper s'
  end.

(** The text [_match_keywords] searches, for a record with string fields. *)
Definition keyword_text (title description : string) (skills : list string)
  : string :=
  lower (String.concat " " [title; description; String.concat " " skills]).

(** How many of the keywords occur in a text, each entry of the list counted
    on its own. *)
Definition keyword_hits (keywords : list string) (text : string) : nat :=
  length (filter (λ kw, str_contains (lower kw) text) keywords).

(** Every key of the opportunity that scoring reads. *)
Definition score_keys : list string :=
  factor_keys ++ ["is_still_open"; "compensation"].

Local Close Scope string_scope.

(** A string entry and a list-of-strings entry that may be missing (the
    empty string and the empty list then stand in), but are never [None]. *)
Definition text_field (d : dict) (k : string) (s : string) : Prop :=
  d !! k = Some (VStr s) ∨ (d !! k = None ∧ s = ""%string).

Definition strs_field (d : dict) (k : string) (l : list string) : Prop :=
  d !! k = Some (VList (VStr <$> l)) ∨ (d !! k = None ∧ l = []).

(** The keys a built profile can have. *)
Definition profile_keys : list string :=
  ["skills"; "interests"; "education_level"; "experience_years";
   "preferred_locations"; "preferred_types"; "remote_only";
   "target_companies"; "salary_min"; "keywords"; "skills_text";
   "skills_embedding"; "interests_text"; "interests_embedding"]%string.

(** How the user's keys are renamed in the profile, with their defaults. *)
Definition profile_fields : list (string * string * value) :=
  [("skills", "skills", VList []);
   ("interests", "interests", VList []);
   ("education_level", "education", VStr "bachelor");
   ("experience_years", "experience", VNum (Fin 0));
   ("preferred_locations", "locations", VList []);
   ("preferred_types", "types", VList [VStr "job"; VStr "internship"]);
   ("remote_only", "remote_only", VBool false);
   ("target_companies", "companies", VList []);
   ("salary_min", "salary_min", VNum (Fin 0));
   ("keywords", "keywords", VList [])]%string.

(** ** More sample data *)

Local Open Scope string_scope.

(** A profile that spells its preferred type with a capital, and names a
    target company. *)
Definition sample_profile_capitals : dict :=
  <["preferred_types" := VList [VStr "Internship"]]>
  (<["target_companies" := VList [VStr "ACME"]]> sample_profile).

Definition opp_internship : dict :=
  <["type" := VStr "Internship"]> opp_austin.

(** A user map whose skills are one string. *)
Definition sample_user_string : dict :=
  <["skills" := VStr "Go"]> ∅.

Definition sample_profile_string : dict :=
  match create_user_profile stub_encode sample_user_string with
  | Ok profile => profile
  | Raise _ => ∅
  end.

(** The sample store with one more record, on which scoring raises. *)
Definition sample_heap_bad : heap :=
  <[3%nat := opp_null_description]> sample_heap.

Definition ranked_heap_bad : heap :=
  fst (rank_opportunities stub_encode stub_sqrt [1]%nat
         sample_profile sample_heap_bad).

Local Close Scope string_scope.

(** ** Sample data for the closed-opportunity penalty *)

Local Open Scope string_scope.

(** A square root that falls a little short of the real one. *)
Definition stub_sqrt_low (x : Q) : Q :=
  if Qle_bool x 1 then 99 # 100 else x.

(** A user every factor of [opp_austin] matches in full. *)
Definition sample_user_full : dict :=
  <["skills" := VList [VStr "Python"]]>
  (<["locations" := VList [VStr "Austin"]]>
  (<["experience" := VNum (Fin 1)]>
  (<["companies" := VList [VStr "Acme"]]>
  (<["keywords" := VList [VStr "ai"]]> ∅)))).

Definition sample_profile_full : dict :=
  match create_user_profile stub_encode sample_user_full with
  | Ok profile => profile
  | Raise _ => ∅
  end.

Local Close Scope string_scope.

(** * Properties *)

(** ** The exception monad *)

Lemma bind_Ok {A B : Type} (m : result A) (f : A → result B) (b : B) :
  m ≫= f = Ok b → ∃ a, m = Ok a ∧ f a = Ok b.
Proof. destruct m as [a|e]; simpl; [eauto | discriminate]. Qed.

Lemma bind_Ok_l {A B : Type} (m : result A) (f : A → result B) (a : A) :
  m = Ok a → m ≫= f = f a.
Proof. by intros ->. Qed.

(** Invert every successful bind among the hypotheses. *)
Ltac inv_bind :=
  repeat match goal with
    | H : _ ≫= _ = Ok _ |- _ =>
        let a := fresh "a" in
        let Ha := fresh "Ha" in
        apply bind_Ok in H; destruct H as (a & Ha & H)
    | H : Ok _ = Ok _ |- _ => injection H as H; subst
    | H : Raise _ = Ok _ |- _ => discriminate H
    | H : (if ?c then _ else _) = Ok _ |- _ =>
        let E := fresh "E" in destruct c eqn:E
    end.

(** ** Floats *)

Lemma in_range_const (q : Q) : 0 <= q → q <= 100 → in_range (Fin q).
Proof. intros; exists q; auto. Qed.

Lemma Qle_bool_false (a b : Q) : Qle_bool a b = false → b < a.
Proof.
  intros H. apply Qnot_le_lt. intros Hle.
  apply Qle_bool_iff in Hle. congruence.
Qed.

(** The final clamp [max(0, min(100, x))] lands in the range whatever [x]
    is, [nan] and the infinities included. *)
Lemma clamp_in_range (x : pyfloat) :
  in_range (py_max (Fin 0) (py_min (Fin 100) x)).
Proof.
  unfold py_max, py_min.
  destruct x as [| | |q]; simpl; try (apply in_range_const; lra).
  destruct (Qle_bool 100 q) eqn:E1; simpl.
  - apply in_range_const; lra.
  - apply Qle_bool_false in E1.
    destruct (Qle_bool q 0) eqn:E2; simpl; apply in_range_const; try lra.
    apply Qle_bool_false in E2. lra.
Qed.

(** On a value already in the range the clamp changes nothing. *)
Lemma clamp_id (q : Q) :
  0 <= q → q <= 100 → feq (py_max (Fin 0) (py_min (Fin 100) (Fin q))) (Fin q).
Proof.
  intros H0 H100. unfold py_max, py_min; simpl.
  destruct (Qle_bool 100 q) eqn:E1; simpl.
  - apply Qle_bool_iff in E1. lra.
  - destruct (Qle_bool q 0) eqn:E2; simpl; [|reflexivity].
    apply Qle_bool_iff in E2. lra.
Qed.

(** ** Factor scorers stay in the range *)

Local Open Scope string_scope.

Section FactorRange.

Variable encode : string → list Q.
Variable np_sqrt : Q → Q.

Lemma _match_location_range (opp profile : dict) (x : pyfloat) :
  _match_location opp profile = Ok x → in_range x.
Proof.
  unfold _match_location. intros H.
  inv_bind; apply in_range_const; lra.
Qed.

Lemma _match_type_range (opp profile : dict) (x : pyfloat) :
  _match_type opp profile = Ok x → in_range x.
Proof.
  unfold _match_type. intros H.
  inv_bind; apply in_range_const; lra.
Qed.

Lemma _match_experience_range (opp profile : dict) (x : pyfloat) :
  _match_experience opp profile = Ok x → in_range x.
Proof.
  unfold _match_experience. intros H.
  inv_bind; repeat case_match; apply in_range_const; lra.
Qed.

Lemma _match_company_range (opp profile : dict) (x : pyfloat) :
  _match_company opp profile = Ok x → in_range x.
Proof.
  unfold _match_company. intros H.
  inv_bind; apply in_range_const; lra.
Qed.

Lemma ratio_in_unit (m n : nat) :
  (m ≤ n)%nat → (0 < n)%nat →
  0 <= inject_Z (Z.of_nat m) / inject_Z (Z.of_nat n) * 100 ∧
  inject_Z (Z.of_nat m) / inject_Z (Z.of_nat n) * 100 <= 100.
Proof.
  intros Hmn Hn.
  assert (Hm0 : 0 <= inject_Z (Z.of_nat m)).
  { change 0 with (inject_Z 0). rewrite <- Zle_Qle. lia. }
  assert (Hn0 : 0 < inject_Z (Z.of_nat n)).
  { change 0 with (inject_Z 0). rewrite <- Zlt_Qlt. lia. }
  assert (Hle : inject_Z (Z.of_nat m) <= inject_Z (Z.of_nat n)).
  { rewrite <- Zle_Qle. lia. }
  assert (H1 : inject_Z (Z.of_nat m) / inject_Z (Z.of_nat n) <= 1).
  { apply Qle_shift_div_r; [done | lra]. }
  assert (H0 : 0 <= inject_Z (Z.of_nat m) / inject_Z (Z.of_nat n)).
  { apply Qle_shift_div_l; [done | lra]. }
  split; lra.
Qed.

Lemma _match_keywords_range (opp profile : dict) (x : pyfloat) :
  _match_keywords opp profile = Ok x → in_range x.
Proof.
  unfold _match_keywords, py_truediv. intros H.
  inv_bind; try (apply in_range_const; lra).
  apply bool_decide_eq_false in E0.
  apply Z.eqb_neq in E1.
  simpl. eexists; split; [reflexivity|].
  apply ratio_in_unit; [apply length_filter | lia].
Qed.

End FactorRange.

(** ** The aggregate *)

Section Aggregate.

Variable encode : string → list Q.
Variable np_sqrt : Q → Q.


Lemma has_skills_list (opp : dict) (l : list value) :
  opp !! "skills" = Some (VList l) → has_skills opp ↔ l ≠ [].
Proof.
  intros H. unfold has_skills, py_get. rewrite H. simpl.
  destruct l; simpl; split; intros; congruence.
Qed.

Lemma skill_factor_cases (opp profile : dict) (ss ws : list pyfloat) :
  skill_factor encode np_sqrt opp profile = Ok (ss, ws) →
  (has_skills opp ∧ has_skills_embedding profile ∧
   ∃ sk, ss = [sk] ∧ ws = [Fin 0.40]) ∨
  (¬ (has_skills opp ∧ has_skills_embedding profile) ∧ ss = [] ∧ ws = []).
Proof.
  unfold skill_factor, has_skills, has_skills_embedding. intros H.
  inv_bind.
  - apply andb_true_iff in E as [-> Hn]. left.
    split; [done|]. split; [|eauto].
    intros Heq. rewrite Heq in Hn. discriminate.
  - right. split; [|done]. intros [Ht Hn]. rewrite Ha in Ht.
    injection Ht as ->. simpl in E.
    destruct (py_get profile "skills_embedding"); simpl in E; congruence.
Qed.

Lemma fold_rest (x : pyfloat) (a b c d e : Q) :
  feq (fadd (fadd (fadd (fadd (fadd (fadd (Fin 0) x) (Fin a)) (Fin b))
                        (Fin c)) (Fin d)) (Fin e))
      (fadd x (Fin (a + b + c + d + e))).
Proof. destruct x; simpl; try done. lra. Qed.

(** What a successful run of lines 85-126 has built. *)
Lemma factor_lists_inv (opp profile : dict) (scores weights : list pyfloat) :
  factor_lists encode np_sqrt opp profile = Ok (scores, weights) →
  ∃ l t e c k : Q,
    (_match_location opp profile = Ok (Fin l) ∧
     _match_type opp profile = Ok (Fin t) ∧
     _match_experience opp profile = Ok (Fin e) ∧
     _match_company opp profile = Ok (Fin c) ∧
     _match_keywords opp profile = Ok (Fin k)) ∧
    ((0 <= l ∧ l <= 100) ∧ (0 <= t ∧ t <= 100) ∧ (0 <= e ∧ e <= 100) ∧
     (0 <= c ∧ c <= 100) ∧ (0 <= k ∧ k <= 100)) ∧
    ((has_skills opp ∧ has_skills_embedding profile ∧
      ∃ sk,
        skill_factor encode np_sqrt opp profile = Ok ([sk], [Fin 0.40]) ∧
        scores = [sk; Fin l; Fin t; Fin e; Fin c; Fin k] ∧
        weights = [Fin 0.40; Fin 0.20; Fin 0.15; Fin 0.10; Fin 0.10;
                   Fin 0.05])
     ∨
     (¬ (has_skills opp ∧ has_skills_embedding profile) ∧
      scores = [Fin l; Fin t; Fin e; Fin c; Fin k] ∧
      weights = [Fin 0.20; Fin 0.15; Fin 0.10; Fin 0.10; Fin 0.05])).
Proof.
  unfold factor_lists. intros H.
  apply bind_Ok in H as ([ss ws] & Hs & H). simpl in H.
  inv_bind.
  destruct (_match_location_range _ _ _ Ha) as (l & -> & Hl).
  destruct (_match_type_range _ _ _ Ha0) as (t & -> & Ht).
  destruct (_match_experience_range _ _ _ Ha1) as (e & -> & He).
  destruct (_match_company_range _ _ _ Ha2) as (c & -> & Hc).
  destruct (_match_keywords_range _ _ _ Ha3) as (k & -> & Hk).
  exists l, t, e, c, k. do 2 (split; [done|]).
  destruct (skill_factor_cases _ _ _ _ Hs)
    as [(H1 & H2 & sk & -> & ->) | (Hno & -> & ->)].
  - left. do 2 (split; [done|]). by exists sk.
  - by right.
Qed.

Lemma weighted_total_skill (sk : pyfloat) (l t e c k : Q) :
  feq (weighted_total [sk; Fin l; Fin t; Fin e; Fin c; Fin k]
         [Fin 0.40; Fin 0.20; Fin 0.15; Fin 0.10; Fin 0.10; Fin 0.05])
      (weighted_sum_spec (Some sk) l t e c k).
Proof.
  unfold weighted_total, py_sum, weighted_sum_spec.
  cbn [zip_with fold_left].
  change (fmul (Fin ?a) (Fin ?b)) with (Fin (a * b)).
  apply fold_rest.
Qed.

(** C2.  The pre-modifier aggregate of [calculate_match_score] is the
    weighted sum of the factor scores with the fixed weights
    0.40/0.20/0.15/0.10/0.10/0.05.  The skill factor is in the sum exactly
    when the opportunity has non-empty skills and the profile has a skills
    embedding; when it is left out nothing is renormalised: the weights
    sum to 0.60 and the aggregate is at most 60. *)
Theorem aggregate_is_weighted_sum (opp profile : dict)
        (scores weights : list pyfloat) :
  factor_lists encode np_sqrt opp profile = Ok (scores, weights) →
  ∃ l t e c k : Q,
    (_match_location opp profile = Ok (Fin l) ∧
     _match_type opp profile = Ok (Fin t) ∧
     _match_experience opp profile = Ok (Fin e) ∧
     _match_company opp profile = Ok (Fin c) ∧
     _match_keywords opp profile = Ok (Fin k)) ∧
    ((has_skills opp ∧ has_skills_embedding profile ∧
      ∃ sk,
        skill_factor encode np_sqrt opp profile = Ok ([sk], [Fin 0.40]) ∧
        scores = [sk; Fin l; Fin t; Fin e; Fin c; Fin k] ∧
        weights = [Fin 0.40; Fin 0.20; Fin 0.15; Fin 0.10; Fin 0.10;
                   Fin 0.05] ∧
        feq (weighted_total scores weights)
            (weighted_sum_spec (Some sk) l t e c k))
     ∨
     (¬ (has_skills opp ∧ has_skills_embedding profile) ∧
      scores = [Fin l; Fin t; Fin e; Fin c; Fin k] ∧
      weights = [Fin 0.20; Fin 0.15; Fin 0.10; Fin 0.10; Fin 0.05] ∧
      feq (py_sum weights) (Fin 0.60) ∧
      feq (weighted_total scores weights)
          (weighted_sum_spec None l t e c k) ∧
      ∃ a, weighted_total scores weights = Fin a ∧ 0 <= a ∧ a <= 60)).
Proof.
  intros H.
  destruct (factor_lists_inv _ _ _ _ H)
    as (l & t & e & c & k & Hf & (Hl & Ht & He & Hc & Hk) & Hcases).
  exists l, t, e, c, k. split; [done|].
  destruct Hcases as [(H1 & H2 & sk & Hsk & -> & ->) | (Hno & -> & ->)].
  - left. do 2 (split; [done|]). exists sk. do 3 (split; [done|]).
    apply weighted_total_skill.
  - right. do 3 (split; [done|]).
    unfold weighted_total, py_sum, weighted_sum_spec; simpl.
    split; [lra|]. split; [lra|].
    eexists; split; [reflexivity|]. split; lra.
Qed.

End Aggregate.

(** ** Cosine similarity *)

Lemma dot_self_nonneg (u : list Q) : 0 <= dot u u.
Proof. induction u as [|x u IH]; simpl; [lra | nra]. Qed.

Lemma Qsq_nonneg (z : Q) : 0 <= z * z.
Proof. nra. Qed.

Lemma Qsq_lt (a b : Q) : 0 <= a → a < b → a * a < b * b.
Proof. nra. Qed.

Lemma Qmul_nonneg (a b : Q) : 0 <= a → 0 <= b → 0 <= a * b.
Proof. nra. Qed.

(** Cauchy-Schwarz for [dot]. *)
Lemma dot_cauchy_schwarz (u v : list Q) :
  dot u v * dot u v <= dot u u * dot v v.
Proof.
  revert v. induction u as [|x u IH]; intros [|y v]; simpl; try lra.
  specialize (IH v).
  pose proof (dot_self_nonneg u) as Ha.
  pose proof (dot_self_nonneg v) as Hb.
  set (d := dot u v) in *. set (a := dot u u) in *. set (b := dot v v) in *.
  assert (Hc : 2 * (x * y) * d <= x * x * b + y * y * a).
  { destruct (Qlt_le_dec (x * x * b + y * y * a) (2 * (x * y) * d))
      as [Hlt|]; [|done].
    exfalso.
    pose proof (Qmul_nonneg _ _ (Qsq_nonneg x) Hb) as Hxb.
    pose proof (Qmul_nonneg _ _ (Qsq_nonneg y) Ha) as Hya.
    assert (H0 : 0 <= x * x * b + y * y * a) by lra.
    pose proof (Qsq_lt _ _ H0 Hlt) as H1.
    pose proof (Qsq_nonneg (x * x * b - y * y * a)) as H2.
    assert (H3 : 0 <= (x * y) * (x * y) * (a * b - d * d)).
    { apply Qmul_nonneg; [apply Qsq_nonneg | lra]. }
    lra. }
  lra.
Qed.

Section Cosine.

Variable np_sqrt : Q → Q.
Hypothesis np_sqrt_tolerant : sqrt_tolerant np_sqrt.

Lemma norm_nonneg (u : list Q) : 0 <= np_linalg_norm np_sqrt u.
Proof. apply np_sqrt_tolerant, dot_self_nonneg. Qed.

Lemma norm_square (u : list Q) :
  dot u u
  <= (5 # 4) * (np_linalg_norm np_sqrt u * np_linalg_norm np_sqrt u).
Proof. apply np_sqrt_tolerant, dot_self_nonneg. Qed.

Lemma Qmul_le_mono (a b x y : Q) :
  0 <= a → 0 <= b → a <= x → b <= y → a * b <= x * y.
Proof. intros. nra. Qed.

Lemma dot_le_norms (u v : list Q) :
  Qabs (dot u v)
  <= (5 # 4) * (np_linalg_norm np_sqrt u * np_linalg_norm np_sqrt v).
Proof.
  pose proof (norm_nonneg u) as Hu. pose proof (norm_nonneg v) as Hv.
  pose proof (norm_square u) as Hu2. pose proof (norm_square v) as Hv2.
  pose proof (dot_cauchy_schwarz u v) as Hcs.
  pose proof (dot_self_nonneg u) as Ha. pose proof (dot_self_nonneg v) as Hb.
  set (n := np_linalg_norm np_sqrt u) in *.
  set (m := np_linalg_norm np_sqrt v) in *.
  set (d := dot u v) in *. set (a := dot u u) in *. set (b := dot v v) in *.
  pose proof (Qmul_le_mono _ _ _ _ Ha Hb Hu2 Hv2) as Hab.
  pose proof (Qmul_nonneg _ _ Hu Hv) as Hnm.
  destruct (Qlt_le_dec ((5 # 4) * (n * m)) (Qabs d)) as [Hlt|]; [|done].
  exfalso.
  assert (Hc : 0 <= (5 # 4) * (n * m)) by lra.
  pose proof (Qsq_lt _ _ Hc Hlt) as Hsq.
  assert (Hd : Qabs d * Qabs d == d * d).
  { apply Qabs_case; intros; ring. }
  lra.
Qed.

(** With such a root the similarity is [nan] (a zero norm) or a finite value
    between -5/4 and 5/4. *)
Lemma _cosine_similarity_bound (u v : list Q) (s : pyfloat) :
  _cosine_similarity np_sqrt u v = Ok s →
  s = NaN ∨ ∃ q, s = Fin q ∧ - (5 # 4) <= q ∧ q <= 5 # 4.
Proof.
  unfold _cosine_similarity, np_dot. intros H. inv_bind.
  pose proof (dot_le_norms u v) as Hd.
  pose proof (Qmul_nonneg _ _ (norm_nonneg u) (norm_nonneg v)) as Hnm.
  set (nm := np_linalg_norm np_sqrt u * np_linalg_norm np_sqrt v) in *.
  set (d := dot u v) in *.
  assert (Hd' : - ((5 # 4) * nm) <= d ∧ d <= (5 # 4) * nm).
  { revert Hd. apply Qabs_case; intros; split; lra. }
  simpl. destruct (Qeq_bool nm 0) eqn:Ez.
  - left. apply Qeq_bool_iff in Ez.
    unfold finf_mul, Qsgn_pos, Qsgn_neg.
    assert (Hd0 : d == 0) by (rewrite Ez in Hd'; lra).
    assert (H1 : Qle_bool d 0 = true) by (apply Qle_bool_iff; lra).
    assert (H2 : Qle_bool 0 d = true) by (apply Qle_bool_iff; lra).
    by rewrite H1, H2.
  - right. eexists; split; [reflexivity|].
    assert (Hpos : 0 < nm).
    { apply Qeq_bool_neq in Ez. apply Qle_lt_or_eq in Hnm as [|Heq]; [done|].
      exfalso. apply Ez. by symmetry. }
    split.
    + apply Qle_shift_div_l; [done | lra].
    + apply Qle_shift_div_r; [done | lra].
Qed.

Lemma skill_score_range (s : pyfloat) :
  (s = NaN ∨ ∃ q, s = Fin q ∧ - (5 # 4) <= q ∧ q <= 5 # 4) →
  ∃ k, py_max (Fin 0) (fmul s (Fin 100)) = Fin k ∧ 0 <= k ∧ k <= 125.
Proof.
  intros [-> | (q & -> & Hlo & Hhi)]; unfold py_max; simpl.
  - eexists; split; [reflexivity|]. split; lra.
  - destruct (Qle_bool (q * 100) 0) eqn:E; simpl;
      (eexists; split; [reflexivity|]); split; try lra.
    apply Qle_bool_false in E. lra.
Qed.

End Cosine.

(** ** The score *)

Section Score.

Variable encode : string → list Q.
Variable np_sqrt : Q → Q.


(** Whenever a score comes back it is a finite number between 0 and 100:
    the final clamp sees to it, whatever the similarity was. *)
Lemma calculate_match_score_range (opp profile : dict) (x : pyfloat) :
  calculate_match_score encode np_sqrt opp profile = Ok x → in_range x.
Proof.
  unfold calculate_match_score. intros H.
  apply bind_Ok in H as ([ss ws] & _ & H). simpl in H.
  inv_bind. apply clamp_in_range.
Qed.

Lemma not_factor_key_open : "is_still_open" ∉ factor_keys.
Proof.
  unfold factor_keys.
  repeat (apply not_elem_of_cons; split; [done|]). apply not_elem_of_nil.
Qed.

Lemma not_factor_key_compensation : "compensation" ∉ factor_keys.
Proof.
  unfold factor_keys.
  repeat (apply not_elem_of_cons; split; [done|]). apply not_elem_of_nil.
Qed.

(** The factor scorers do not look at keys outside [factor_keys]. *)
Lemma factor_lists_insert (k : string) (v : value) (opp profile : dict) :
  k ∉ factor_keys →
  factor_lists encode np_sqrt (<[k := v]> opp) profile = factor_lists encode np_sqrt opp profile.
Proof.
  intros Hk. unfold factor_keys in Hk.
  repeat (apply not_elem_of_cons in Hk as [? Hk]).
  unfold factor_lists, skill_factor, _match_location, _match_type,
    _match_experience, _match_company, _match_keywords,
    py_get, py_get_default, py_index.
  by rewrite !lookup_insert_ne by done.
Qed.

Lemma factor_lists_salary_min (w : value) (opp profile : dict) :
  factor_lists encode np_sqrt opp (<["salary_min" := w]> profile) = factor_lists encode np_sqrt opp profile.
Proof.
  unfold factor_lists, skill_factor, _match_location, _match_type,
    _match_experience, _match_company, _match_keywords,
    py_get, py_get_default, py_index.
  by rewrite !lookup_insert_ne by done.
Qed.

(** The modifiers: only [is_still_open] has an effect. *)
Lemma _apply_modifiers_Ok (b s : pyfloat) (opp profile : dict) :
  _apply_modifiers b opp profile = Ok s →
  ∃ still_open : bool,
    py_truthy (py_get_default opp "is_still_open" (VBool true))
    = Ok still_open ∧
    s = if still_open then b else fmul b (Fin 0.5).
Proof.
  unfold _apply_modifiers. intros H. inv_bind.
  exists a. split; [done|]. by destruct a.
Qed.

Lemma _apply_modifiers_open (b : pyfloat) (opp profile : dict) :
  (∃ s, _apply_modifiers b opp profile = Ok s) →
  _apply_modifiers b (<["is_still_open" := VBool true]> opp) profile = Ok b.
Proof.
  intros [s H]. unfold _apply_modifiers in *. inv_bind.
  unfold py_get_default, py_get in *.
  rewrite lookup_insert_eq. simpl.
  rewrite lookup_insert_ne by done. by rewrite Ha0.
Qed.

End Score.

(** ** The penalty for closed opportunities *)

Section ClosedPenalty.

Variable encode : string → list Q.
Variable np_sqrt : Q → Q.

Lemma py_max_zero_nonneg (x : pyfloat) :
  py_max (Fin 0) x = PInf ∨ ∃ q, py_max (Fin 0) x = Fin q ∧ 0 <= q.
Proof.
  unfold py_max. destruct x as [| | |q]; simpl; eauto.
  - right. exists 0. split; [done | lra].
  - right. exists 0. split; [done | lra].
  - destruct (Qle_bool q 0) eqn:Hq; simpl; right.
    + exists 0. split; [done | lra].
    + apply Qle_bool_false in Hq. exists q. split; [done | lra].
Qed.

(** The skill score is never negative and never [nan]: [max(0, x)] keeps 0
    against both. *)
Lemma skill_factor_nonneg (opp profile : dict) (sk : pyfloat)
      (ws : list pyfloat) :
  skill_factor encode np_sqrt opp profile = Ok ([sk], ws) →
  sk = PInf ∨ ∃ q, sk = Fin q ∧ 0 <= q.
Proof.
  unfold skill_factor. intros H. inv_bind; simplify_eq.
  apply py_max_zero_nonneg.
Qed.

(** So is the aggregate: a finite number that is not negative, or plus
    infinity. *)
Lemma weighted_total_nonneg (opp profile : dict)
      (scores weights : list pyfloat) :
  factor_lists encode np_sqrt opp profile = Ok (scores, weights) →
  weighted_total scores weights = PInf ∨
  ∃ a, weighted_total scores weights = Fin a ∧ 0 <= a.
Proof.
  intros H.
  destruct (factor_lists_inv _ _ _ _ _ _ H)
    as (l & t & e & c & k & _ & (Hl & Ht & He & Hc & Hk) & Hcases).
  destruct Hcases as [(_ & _ & sk & Hsk & -> & ->) | (_ & -> & ->)].
  - destruct (skill_factor_nonneg _ _ _ _ Hsk) as [-> | (q & -> & Hq)].
    + by left.
    + right. unfold weighted_total, py_sum; simpl.
      eexists; split; [reflexivity|]. lra.
  - right. unfold weighted_total, py_sum; simpl.
    eexists; split; [reflexivity|]. lra.
Qed.

Lemma skill_factor_range (opp profile : dict) (sk : pyfloat)
      (ws : list pyfloat) :
  sqrt_tolerant np_sqrt →
  skill_factor encode np_sqrt opp profile = Ok ([sk], ws) →
  ∃ k, sk = Fin k ∧ 0 <= k ∧ k <= 125.
Proof.
  intros Hsqrt. unfold skill_factor. intros H. inv_bind; simplify_eq.
  eapply skill_score_range, _cosine_similarity_bound; eauto.
Qed.

(** With a tolerant square root the aggregate is at most 110. *)
Lemma weighted_total_range (opp profile : dict)
      (scores weights : list pyfloat) :
  sqrt_tolerant np_sqrt →
  factor_lists encode np_sqrt opp profile = Ok (scores, weights) →
  ∃ a, weighted_total scores weights = Fin a ∧ 0 <= a ∧ a <= 110.
Proof.
  intros Hsqrt H.
  destruct (factor_lists_inv _ _ _ _ _ _ H)
    as (l & t & e & c & k & _ & (Hl & Ht & He & Hc & Hk) & Hcases).
  destruct Hcases as [(_ & _ & sk & Hsk & -> & ->) | (_ & -> & ->)].
  - destruct (skill_factor_range _ _ _ _ Hsqrt Hsk) as (s & -> & Hs).
    unfold weighted_total, py_sum; simpl.
    eexists; split; [reflexivity|]. split; lra.
  - unfold weighted_total, py_sum; simpl.
    eexists; split; [reflexivity|]. split; lra.
Qed.

Lemma half_in_range (a : Q) :
  0 <= a → a <= 200 →
  feq (py_max (Fin 0) (py_min (Fin 100) (fmul (Fin a) (Fin 0.5))))
      (Fin (a * 0.5)).
Proof. intros. apply clamp_id; lra. Qed.

(** C7.  For an opportunity whose [is_still_open] is false the aggregate is
    multiplied by 0.5 once, after the weighting, and the product is then
    clamped: the final score is exactly half the aggregate the same
    opportunity has with [is_still_open] true, measured before the clamp,
    whenever that half is within the clamp's range (an aggregate of at most
    200, which a tolerant square root keeps below 110).  The open twin has
    the same aggregate, unmodified and only clamped.  Whatever [compensation]
    and [salary_min] hold, the score stays the same. *)
Theorem closed_score_is_half (opp profile : dict) (closed_score : pyfloat) :
  opp !! "is_still_open" = Some (VBool false) →
  calculate_match_score encode np_sqrt opp profile = Ok closed_score →
  ∃ (scores weights : list pyfloat) (agg : pyfloat),
    factor_lists encode np_sqrt opp profile = Ok (scores, weights) ∧
    agg = weighted_total scores weights ∧
    (agg = PInf ∨ ∃ a, agg = Fin a ∧ 0 <= a) ∧
    _apply_modifiers agg opp profile = Ok (fmul agg (Fin 0.5)) ∧
    closed_score = py_max (Fin 0) (py_min (Fin 100) (fmul agg (Fin 0.5))) ∧
    (∀ a, agg = Fin a → a <= 200 → feq closed_score (Fin (a * 0.5))) ∧
    (sqrt_tolerant np_sqrt →
     ∃ a, agg = Fin a ∧ 0 <= a ∧ a <= 110 ∧
          feq closed_score (Fin (a * 0.5))) ∧
    (factor_lists encode np_sqrt
       (<["is_still_open" := VBool true]> opp) profile = Ok (scores, weights) ∧
     _apply_modifiers agg (<["is_still_open" := VBool true]> opp) profile
     = Ok agg ∧
     calculate_match_score encode np_sqrt
       (<["is_still_open" := VBool true]> opp) profile
     = Ok (py_max (Fin 0) (py_min (Fin 100) agg))) ∧
    (∀ (compensation salary_min : value) (s : pyfloat),
       calculate_match_score encode np_sqrt
         (<["compensation" := compensation]> opp)
         (<["salary_min" := salary_min]> profile) = Ok s →
       s = closed_score).
Proof.
  intros Hclosed H. unfold calculate_match_score in H.
  apply bind_Ok in H as ([scores weights] & Hf & H). simpl in H.
  apply bind_Ok in H as (m & Hm & H). injection H as <-.
  pose proof (weighted_total_nonneg _ _ _ _ Hf) as Hnonneg.
  set (agg := weighted_total scores weights) in *.
  destruct (_apply_modifiers_Ok _ _ _ _ Hm) as (still_open & Hopen & ->).
  unfold py_get_default in Hopen. rewrite Hclosed in Hopen.
  injection Hopen as <-.
  exists scores, weights, agg. do 5 (split; [done|]).
  assert (Hhalf : ∀ a, agg = Fin a → a <= 200 →
            feq (py_max (Fin 0) (py_min (Fin 100) (fmul agg (Fin 0.5))))
                (Fin (a * 0.5))).
  { intros a Ha Ha200. rewrite Ha in *.
    destruct Hnonneg as [? | (a' & [= <-] & Ha0)]; [done|].
    by apply half_in_range. }
  split; [done|]. split; [|split].
  - intros Hsqrt.
    destruct (weighted_total_range _ _ _ _ Hsqrt Hf) as (a & Ha & Ha0 & Ha1).
    exists a. do 3 (split; [done|]). apply Hhalf; [done | lra].
  - assert (Hopen : _apply_modifiers agg
                      (<["is_still_open" := VBool true]> opp) profile
                    = Ok agg) by (apply _apply_modifiers_open; eauto).
    rewrite factor_lists_insert by apply not_factor_key_open.
    do 2 (split; [done|]).
    unfold calculate_match_score.
    rewrite factor_lists_insert by apply not_factor_key_open.
    rewrite Hf. simpl. fold agg. by rewrite Hopen.
  - intros comp sal s Hs. unfold calculate_match_score in Hs.
    rewrite factor_lists_salary_min in Hs.
    rewrite factor_lists_insert in Hs by apply not_factor_key_compensation.
    rewrite Hf in Hs. simpl in Hs. fold agg in Hs.
    apply bind_Ok in Hs as (m' & Hm' & Hs). injection Hs as <-.
    destruct (_apply_modifiers_Ok _ _ _ _ Hm') as (so & Hso & ->).
    unfold py_get_default in Hso.
    rewrite lookup_insert_ne in Hso by done. rewrite Hclosed in Hso.
    by injection Hso as <-.
Qed.

End ClosedPenalty.

(** ** The location factor *)

Lemma mapR_py_lower_strs (l : list string) :
  mapR py_lower (VStr <$> l) = Ok (lower <$> l).
Proof. induction l as [|s l IH]; csimpl; [done|]. by rewrite IH. Qed.

Lemma existsb_fmap {A B : Type} (f : A → B) (p : B → bool) (l : list A) :
  existsb p (f <$> l) = existsb (λ x, p (f x)) l.
Proof. induction l as [|x l IH]; csimpl; [done|]. by rewrite IH. Qed.

Lemma py_truthy_opt_bool (d : dict) (k : string) (b : bool) :
  opt_bool_field d k b → py_truthy (py_get d k) = Ok b.
Proof.
  unfold py_get. intros [-> | (-> & [-> | ->])]; done.
Qed.

Lemma py_lower_opt_str (d : dict) (k : string) (s : option string) :
  opt_str_field d k s →
  ∃ v, py_or (py_get d k) (VStr "") = Ok v ∧
       py_lower v = Ok (lower (default "" s)).
Proof.
  unfold py_get. destruct s as [s|]; simpl.
  - intros ->. simpl. destruct s; simpl; eauto.
  - intros [-> | ->]; simpl; eauto.
Qed.

Ltac bind_step := cbn [mbind result_mbind result_bind].
Tactic Notation "bind_step" "in" hyp(H) :=
  cbn [mbind result_mbind result_bind] in H.

(** C8.  The location factor follows the ordered checks of the spec: 100 for
    a remote-only profile and a remote opportunity; else 100 when some
    preferred location, lower-cased, occurs in the lower-cased location (a
    missing location counting as the empty string); else 70 for a remote
    opportunity; else 0. *)
Theorem _match_location_spec (opp profile : dict) (remote_only remote : bool)
        (preferred : list string) (location : option string) :
  profile !! "remote_only" = Some (VBool remote_only) →
  profile !! "preferred_locations" = Some (VList (VStr <$> preferred)) →
  opt_bool_field opp "remote" remote →
  opt_str_field opp "location" location →
  _match_location opp profile
  = Ok (Fin (location_score_spec remote_only remote preferred location)).
Proof.
  intros Hro Hpref Hremote Hloc.
  unfold _match_location, py_index, py_and_cond. rewrite Hro, Hpref. simpl.
  rewrite (py_truthy_opt_bool _ _ _ Hremote).
  unfold location_score_spec.
  destruct (py_lower_opt_str _ _ _ Hloc) as (v & Hv & Hl).
  destruct remote_only, remote; simpl; try done;
    rewrite Hv; bind_step; rewrite Hl; bind_step;
    rewrite mapR_py_lower_strs; bind_step; rewrite existsb_fmap;
    by destruct (existsb _ preferred).
Qed.

(** ** Profiles *)

Section Profile.

Variable encode : string → list Q.

Lemma py_truthy_list (l : list value) :
  py_truthy (VList l) = Ok (negb (bool_decide (l = []))).
Proof. done. Qed.

(** C9.  In every profile that [create_user_profile] returns, the
    [skills_embedding] entry is present exactly when the skills list is
    non-empty, and the [interests_embedding] entry exactly when the
    interests list is non-empty. *)
Theorem create_user_profile_embeddings (user_data profile : dict) :
  create_user_profile encode user_data = Ok profile →
  (∀ skills : list value,
     profile !! "skills" = Some (VList skills) →
     is_Some (profile !! "skills_embedding") ↔ skills ≠ []) ∧
  (∀ interests : list value,
     profile !! "interests" = Some (VList interests) →
     is_Some (profile !! "interests_embedding") ↔ interests ≠ []).
Proof.
  unfold create_user_profile, py_index. intros H.
  rewrite lookup_insert_eq in H. bind_step in H.
  apply bind_Ok in H as (has_skills & Hts & H).
  apply bind_Ok in H as (p1 & Hp1 & H).
  set (base := <["skills" := _]> _) in *.
  assert (Hbase_se : base !! "skills_embedding" = None) by done.
  assert (Hbase_ie : base !! "interests_embedding" = None) by done.
  assert (Hbase_s : base !! "skills"
                    = Some (py_get_default user_data "skills" (VList [])))
    by done.
  assert (Hbase_i : base !! "interests"
                    = Some (py_get_default user_data "interests" (VList [])))
    by done.
  clearbody base.
  assert (Hp1_s : p1 !! "skills" = base !! "skills" ∧
                  p1 !! "interests" = base !! "interests" ∧
                  p1 !! "interests_embedding" = None ∧
                  (is_Some (p1 !! "skills_embedding") ↔ has_skills = true)).
  { destruct has_skills;
      [apply bind_Ok in Hp1 as (text & _ & Hp1) |]; injection Hp1 as <-.
    - rewrite !lookup_insert_ne by done. rewrite lookup_insert_eq.
      repeat split; eauto.
    - rewrite Hbase_se. repeat split; try done; try by intros []. }
  destruct Hp1_s as (Hs1 & Hi1 & Hie1 & Hse1).
  rewrite Hi1, Hbase_i in H. bind_step in H.
  apply bind_Ok in H as (has_interests & Hti & H).
  assert (Hp : profile !! "skills" = p1 !! "skills" ∧
               profile !! "interests" = p1 !! "interests" ∧
               profile !! "skills_embedding" = p1 !! "skills_embedding" ∧
               (is_Some (profile !! "interests_embedding")
                ↔ has_interests = true)).
  { destruct has_interests;
      [apply bind_Ok in H as (text & _ & H) |]; injection H as <-.
    - rewrite !lookup_insert_ne by done. rewrite lookup_insert_eq.
      repeat split; eauto.
    - rewrite Hie1. repeat split; try done; try by intros []. }
  destruct Hp as (Hs & Hi & Hse & Hie).
  split.
  - intros skills Hsk. rewrite Hs, Hs1, Hbase_s in Hsk.
    injection Hsk as Hsk. rewrite Hsk, py_truthy_list in Hts.
    injection Hts as <-. rewrite Hse, Hse1.
    rewrite negb_true_iff, bool_decide_eq_false. done.
  - intros interests Hin. rewrite Hi, Hi1, Hbase_i in Hin.
    injection Hin as Hin. rewrite Hin, py_truthy_list in Hti.
    injection Hti as <-. rewrite Hie.
    rewrite negb_true_iff, bool_decide_eq_false. done.
Qed.

End Profile.

(** ** Sorting *)

Lemma fltb_feqb (a b k : pyfloat) :
  fltb a b = true → feqb b k = true → feqb a k = false.
Proof.
  destruct a as [| | |x], b as [| | |y], k as [| | |z]; simpl; try done.
  intros Hlt Heq. apply negb_true_iff, Qle_bool_false in Hlt.
  apply Qeq_bool_iff in Heq.
  destruct (Qeq_bool x z) eqn:E; [|done].
  apply Qeq_bool_iff in E. lra.
Qed.

Lemma fltb_false_fleb (x y : Q) : fltb (Fin y) (Fin x) = false → fleb (Fin x) (Fin y) = true.
Proof. simpl. by intros ->%negb_false_iff. Qed.

Lemma fltb_fleb (x y : Q) : fltb (Fin y) (Fin x) = true → fleb (Fin y) (Fin x) = true.
Proof.
  simpl. intros H%negb_true_iff%Qle_bool_false. apply Qle_bool_iff. lra.
Qed.

Lemma fleb_trans (x y z : pyfloat) :
  fleb x y = true → fleb y z = true → fleb x z = true.
Proof.
  destruct x, y, z; simpl; try done.
  rewrite !Qle_bool_iff. apply Qle_trans.
Qed.

Section SortedFacts.
Context {A : Type}.
Implicit Types (x : pyfloat * A) (l : list (pyfloat * A)).

#[local] Instance key_le_trans : Transitive (@key_le A).
Proof. intros x y z. apply fleb_trans. Qed.

Lemma insert_by_perm x l : insert_by x l ≡ₚ x :: l.
Proof.
  induction l as [|y l IH]; simpl; [done|].
  destruct (fltb y.1 x.1); [|done]. rewrite IH. apply Permutation_swap.
Qed.

Lemma stable_sort_perm l : stable_sort l ≡ₚ l.
Proof.
  induction l as [|x l IH]; simpl; [done|].
  rewrite insert_by_perm. by rewrite IH.
Qed.

Lemma py_sorted_perm l b : py_sorted l b ≡ₚ l.
Proof.
  unfold py_sorted. destruct b; [|apply stable_sort_perm].
  by rewrite reverse_Permutation, stable_sort_perm, reverse_Permutation.
Qed.

Lemma insert_by_sorted x l :
  finite_key x → Forall finite_key l →
  StronglySorted (@key_le A) l → StronglySorted (@key_le A) (insert_by x l).
Proof.
  intros [qx Hx] Hfin Hs. induction Hs as [|y l Hs IH Hy]; simpl.
  - repeat constructor.
  - apply Forall_cons in Hfin as [[qy Hqy] Hfin].
    destruct (fltb y.1 x.1) eqn:E.
    + constructor; [by apply IH|].
      rewrite insert_by_perm. constructor; [|done].
      unfold key_le. rewrite Hx, Hqy in *. by apply fltb_fleb.
    + assert (Hxy : key_le x y).
      { unfold key_le. rewrite Hx, Hqy in *. by apply fltb_false_fleb. }
      constructor; [by constructor|].
      constructor; [done|].
      eapply Forall_impl; [exact Hy|]. intros z Hz. by etrans.
Qed.

Lemma stable_sort_sorted l :
  Forall finite_key l → StronglySorted (@key_le A) (stable_sort l).
Proof.
  induction l as [|x l IH]; simpl; intros Hfin; [constructor|].
  apply Forall_cons in Hfin as [Hx Hfin].
  apply insert_by_sorted; [done| |by apply IH].
  by rewrite stable_sort_perm.
Qed.

Lemma StronglySorted_reverse (R : relation (pyfloat * A)) l :
  StronglySorted R l → StronglySorted (flip R) (reverse l).
Proof.
  induction 1 as [|x l Hs IH Hx]; [constructor|].
  rewrite reverse_cons. apply StronglySorted_app_2;
    [|done|repeat constructor].
  intros y z Hy ->%list_elem_of_singleton. unfold flip.
  rewrite elem_of_reverse in Hy. rewrite Forall_forall in Hx.
  by apply Hx.
Qed.

(** [sorted(..., reverse=True)] is in non-increasing order of keys. *)
Lemma py_sorted_descending l :
  Forall finite_key l → StronglySorted (flip (@key_le A)) (py_sorted l true).
Proof.
  intros Hfin. unfold py_sorted. apply StronglySorted_reverse.
  apply stable_sort_sorted. by rewrite reverse_Permutation.
Qed.

Lemma insert_by_filter (k : pyfloat) x l :
  filter (λ y, feqb y.1 k = true) (insert_by x l)
  = filter (λ y, feqb y.1 k = true) (x :: l).
Proof.
  induction l as [|y l IH]; simpl; [done|].
  destruct (fltb y.1 x.1) eqn:E; [|done].
  rewrite filter_cons, IH, !filter_cons.
  destruct (decide (feqb x.1 k = true)) as [Hx|Hx]; [|done].
  rewrite (fltb_feqb _ _ _ E Hx).
  by destruct (decide (false = true)).
Qed.

Lemma stable_sort_filter (k : pyfloat) l :
  filter (λ y, feqb y.1 k = true) (stable_sort l)
  = filter (λ y, feqb y.1 k = true) l.
Proof.
  induction l as [|x l IH]; simpl; [done|].
  by rewrite insert_by_filter, !filter_cons, IH.
Qed.

(** And it is stable: the elements with a given key come out in the order
    they went in. *)
Lemma py_sorted_stable (k : pyfloat) l :
  filter (λ y, feqb y.1 k = true) (py_sorted l true)
  = filter (λ y, feqb y.1 k = true) l.
Proof.
  unfold py_sorted.
  by rewrite filter_reverse, stable_sort_filter, filter_reverse,
    reverse_involutive.
Qed.

End SortedFacts.

(** ** Ranking *)

Section Ranking.

Variable encode : string → list Q.
Variable np_sqrt : Q → Q.

(** The score does not look at a [match_score] already on the record. *)
Lemma calculate_match_score_insert_score (v : value) (d profile : dict) :
  calculate_match_score encode np_sqrt (<["match_score" := v]> d) profile
  = calculate_match_score encode np_sqrt d profile.
Proof.
  unfold calculate_match_score. rewrite factor_lists_insert.
  - unfold _apply_modifiers, py_get_default, py_get.
    by rewrite !lookup_insert_ne by done.
  - unfold factor_keys.
    repeat (apply not_elem_of_cons; split; [done|]). apply not_elem_of_nil.
Qed.

(** The loop of lines 256-257 rewrites exactly the records of the list,
    and on each of them exactly the entry [match_score]. *)
Lemma score_loop_spec (opps : list nat) (profile : dict) (h h' : heap) :
  score_loop encode np_sqrt opps profile h = (h', Ok ()) →
  ∀ ref : nat,
    (ref ∈ opps →
     ∃ d s, h !! ref = Some d ∧
            calculate_match_score encode np_sqrt d profile = Ok s ∧
            h' !! ref = Some (<["match_score" := VNum s]> d)) ∧
    (ref ∉ opps → h' !! ref = h !! ref).
Proof.
  revert h. induction opps as [|opp rest IH]; intros h; simpl.
  - intros [= <-] ref. split; [by intros ?%elem_of_nil | done].
  - unfold deref. destruct (h !! opp) as [d|] eqn:Hd; [|done].
    destruct (calculate_match_score _ _ d profile) as [s|] eqn:Hs; [|done].
    intros Hloop ref. destruct (IH _ Hloop ref) as [IHin IHout].
    destruct (decide (ref = opp)) as [->|Hne].
    + split; [intros _ | by intros []%not_elem_of_cons].
      destruct (decide (opp ∈ rest)) as [Hin|Hnin].
      * destruct (IHin Hin) as (d1 & s1 & Hd1 & Hs1 & Hh').
        rewrite lookup_insert_eq in Hd1. injection Hd1 as <-.
        rewrite calculate_match_score_insert_score in Hs1.
        exists d, s1. rewrite Hh', insert_insert_eq. done.
      * exists d, s. rewrite (IHout Hnin), lookup_insert_eq. done.
    + rewrite lookup_insert_ne in IHin, IHout by done. split.
      * intros [?|Hin]%elem_of_cons; [done | by apply IHin].
      * intros [_ Hnin]%not_elem_of_cons. by apply IHout.
Qed.

Lemma match_score_of_scored (h : heap) (ref : nat) (d : dict) (s : pyfloat) :
  h !! ref = Some (<["match_score" := VNum s]> d) →
  match_score_of h ref = s ∧ match_score_key h ref = Ok (s, ref).
Proof.
  intros H. unfold match_score_of, match_score_key, deref, py_index.
  rewrite H. simpl. by rewrite lookup_insert_eq.
Qed.

Lemma mapR_ext_Ok {A B : Type} (f : A → result B) (g : A → B) (l : list A) :
  (∀ x, x ∈ l → f x = Ok (g x)) → mapR f l = Ok (g <$> l).
Proof.
  induction l as [|x l IH]; intros H; csimpl; [done|].
  rewrite H by by left. bind_step. rewrite IH; [done|].
  intros y Hy. apply H. by right.
Qed.

(** What a successful ranking did. *)
Lemma rank_opportunities_inv (opps : list nat) (profile : dict)
      (h h' : heap) (ranked : list nat) :
  rank_opportunities encode np_sqrt opps profile h = (h', Ok ranked) →
  score_loop encode np_sqrt opps profile h = (h', Ok ()) ∧
  opps ≠ [] ∧
  ranked = (snd <$> py_sorted ((λ ref, (match_score_of h' ref, ref)) <$> opps)
                              true).
Proof.
  unfold rank_opportunities.
  destruct (score_loop _ _ opps profile h) as [h1 looped] eqn:Hloop.
  intros [= -> H]. destruct looped as [[]|]; [|done]. bind_step in H.
  split; [done|].
  rewrite (mapR_ext_Ok _ (λ ref, (match_score_of h' ref, ref))) in H.
  - bind_step in H. split.
    + intros ->. simpl in H. done.
    + by inv_bind.
  - intros ref Hin.
    destruct (score_loop_spec _ _ _ _ Hloop ref) as [Hs _].
    destruct (Hs Hin) as (d & s & _ & _ & Hh').
    by destruct (match_score_of_scored _ _ _ _ Hh') as [-> ->].
Qed.

End Ranking.

Section KeyedRefs.

Variable f : nat → pyfloat.
Implicit Types (L : list (pyfloat * nat)).

Lemma keyed_fmap_snd (l : list nat) : (snd <$> ((λ ref, (f ref, ref)) <$> l)) = l.
Proof. induction l as [|x l IH]; csimpl; [done|]. by rewrite IH. Qed.

Lemma keyed_Forall (l : list nat) :
  Forall (λ p : pyfloat * nat, p.1 = f p.2) ((λ ref, (f ref, ref)) <$> l).
Proof. induction l; csimpl; by constructor. Qed.

Lemma sorted_refs L :
  Forall (λ p, p.1 = f p.2) L →
  StronglySorted (flip key_le) L →
  StronglySorted (λ a b, fleb (f b) (f a) = true) (snd <$> L).
Proof.
  intros Hf Hs. induction Hs as [|p L Hs IH Hp]; csimpl; [constructor|].
  apply Forall_cons in Hf as [Hfp Hf].
  constructor; [by apply IH|].
  apply Forall_fmap. rewrite Forall_forall in Hp, Hf |- *.
  intros q Hq. simpl. specialize (Hp q Hq). specialize (Hf q Hq).
  unfold flip, key_le in Hp. by rewrite <- Hfp, <- Hf.
Qed.

Lemma filter_refs (k : pyfloat) L :
  Forall (λ p, p.1 = f p.2) L →
  filter (λ ref, feqb (f ref) k = true) (snd <$> L)
  = snd <$> filter (λ p, feqb p.1 k = true) L.
Proof.
  induction 1 as [|p L Hp Hf IH]; csimpl; [done|].
  rewrite !filter_cons, IH. simpl. rewrite Hp.
  by destruct (decide (feqb (f p.2) k = true)).
Qed.

End KeyedRefs.

Section Rank.

Variable encode : string → list Q.
Variable np_sqrt : Q → Q.

(** C3.  The list that [rank_opportunities] returns holds the input
    records, in non-increasing order of match score, and records with equal
    scores keep the relative order they had in the input. *)
Theorem rank_sorted_stable (opps : list nat) (profile : dict)
        (h h' : heap) (ranked : list nat) :
  rank_opportunities encode np_sqrt opps profile h = (h', Ok ranked) →
  ranked ≡ₚ opps ∧
  (∀ ref, ref ∈ opps → in_range (match_score_of h' ref)) ∧
  StronglySorted
    (λ a b, fleb (match_score_of h' b) (match_score_of h' a) = true)
    ranked ∧
  (∀ k : pyfloat,
     filter (λ ref, feqb (match_score_of h' ref) k = true) ranked
     = filter (λ ref, feqb (match_score_of h' ref) k = true) opps).
Proof.
  intros H. apply rank_opportunities_inv in H as (Hloop & _ & ->).
  set (f := match_score_of h').
  set (keyed := (λ ref, (f ref, ref)) <$> opps).
  assert (Hrange : ∀ ref, ref ∈ opps → in_range (f ref)).
  { intros ref Hin.
    destruct (score_loop_spec _ _ _ _ _ _ Hloop ref) as [Hs _].
    destruct (Hs Hin) as (d & s & _ & Hscore & Hh').
    destruct (match_score_of_scored _ _ _ _ Hh') as [Hf _].
    subst f. rewrite Hf. by eapply calculate_match_score_range. }
  assert (Hkeyed : Forall (λ p : pyfloat * nat, p.1 = f p.2) keyed)
    by apply keyed_Forall.
  assert (Hfin : Forall finite_key keyed).
  { subst keyed. apply Forall_fmap, Forall_forall. intros ref Hin.
    destruct (Hrange ref Hin) as (q & Hq & _). by exists q. }
  split; [|split; [done|split]].
  - rewrite py_sorted_perm. subst keyed. by rewrite keyed_fmap_snd.
  - apply sorted_refs; [|by apply py_sorted_descending].
    by rewrite py_sorted_perm.
  - intros k. rewrite (filter_refs f) by by rewrite py_sorted_perm.
    rewrite py_sorted_stable, <- (filter_refs f) by done.
    subst keyed. by rewrite keyed_fmap_snd.
Qed.

(** C4, as the code has it.  Ranking writes into the records it is given:
    each record of the input list gets its score stored under
    [match_score], in place, and no other entry of it changes; records
    outside the list are left alone, and the returned list is a new list
    of the same records. *)
Theorem rank_writes_match_score_only (opps : list nat) (profile : dict)
        (h h' : heap) (ranked : list nat) :
  rank_opportunities encode np_sqrt opps profile h = (h', Ok ranked) →
  ranked ≡ₚ opps ∧
  (∀ ref, ref ∉ opps → h' !! ref = h !! ref) ∧
  (∀ ref, ref ∈ opps →
     ∃ d s, h !! ref = Some d ∧
            calculate_match_score encode np_sqrt d profile = Ok s ∧
            h' !! ref = Some (<["match_score" := VNum s]> d) ∧
            ∀ k, k ≠ "match_score" →
                 (<["match_score" := VNum s]> d) !! k = d !! k).
Proof.
  intros H. apply rank_opportunities_inv in H as (Hloop & _ & ->).
  split; [|split].
  - by rewrite py_sorted_perm, (keyed_fmap_snd (match_score_of h')).
  - intros ref Hnin. by apply (score_loop_spec _ _ _ _ _ _ Hloop ref).
  - intros ref Hin.
    destruct (score_loop_spec _ _ _ _ _ _ Hloop ref) as [Hs _].
    destruct (Hs Hin) as (d & s & Hd & Hscore & Hh').
    exists d, s. do 3 (split; [done|]).
    intros k Hk. by rewrite lookup_insert_ne.
Qed.

(** C5, at the empty list: line 262 reads [ranked[0]] and raises. *)
Theorem rank_empty_raises (profile : dict) (h : heap) :
  rank_opportunities encode np_sqrt [] profile h = (h, Raise IndexError).
Proof. reflexivity. Qed.

End Rank.

(** ** Filtering *)

Lemma filterR_Ok {A : Type} (f : A → result bool) (l r : list A) :
  filterR f l = Ok r →
  r = filter (λ x, match f x with Ok b => b | Raise _ => false end = true) l.
Proof.
  revert r. induction l as [|x l IH]; intros r H; simpl in H.
  - by injection H as <-.
  - apply bind_Ok in H as (keep & Hk & H).
    apply bind_Ok in H as (rest & Hr & H). injection H as <-.
    rewrite filter_cons, Hk, <- (IH _ Hr).
    by destruct keep; [rewrite decide_True | rewrite decide_False].
Qed.

Lemma filterR_total {A : Type} (f : A → result bool) (l : list A) :
  (∀ x, x ∈ l → ∃ b, f x = Ok b) → ∃ r, filterR f l = Ok r.
Proof.
  induction l as [|x l IH]; intros H; simpl; [eauto|].
  destruct (H x) as [b ->]; [by left|].
  destruct IH as [r ->]; [intros y Hy; apply H; by right|].
  simpl. eauto.
Qed.

Lemma filterR_ext {A : Type} (f g : A → result bool) (l : list A) :
  (∀ x, x ∈ l → f x = g x) → filterR f l = filterR g l.
Proof.
  induction l as [|x l IH]; intros H; simpl; [done|].
  rewrite H by by left. rewrite IH; [done|]. intros y Hy. apply H. by right.
Qed.

Lemma py_slice_to_nonneg {A : Type} (l : list A) (n : Z) :
  (0 ≤ n)%Z → py_slice_to l n = take (Z.to_nat n) l.
Proof. intros Hn. unfold py_slice_to. by rewrite (proj2 (Z.leb_le 0 n)). Qed.

Lemma filterR_decide {A : Type} (f : A → result bool) (P : A → Prop)
      `{∀ x, Decision (P x)} (l : list A) :
  (∀ x, x ∈ l → f x = Ok (bool_decide (P x))) →
  filterR f l = Ok (filter P l).
Proof.
  induction l as [|x l IH]; intros Hf; simpl; [done|].
  rewrite Hf by by left. bind_step.
  rewrite IH by (intros y Hy; apply Hf; by right). bind_step.
  rewrite filter_cons.
  case_bool_decide; [rewrite decide_True by done | rewrite decide_False by done];
    done.
Qed.

Lemma Qle_bool_decide (x y : Q) : Qle_bool x y = bool_decide (x <= y).
Proof.
  destruct (decide (x <= y)) as [Hle|Hnle].
  - rewrite bool_decide_eq_true_2 by done.
    by apply (proj2 (Qle_bool_iff x y)).
  - rewrite bool_decide_eq_false_2 by done.
    apply not_true_iff_false. intros Hb. apply Hnle.
    by apply (proj1 (Qle_bool_iff x y)).
Qed.

Lemma passes_score_or_zero (h : heap) (m : Q) (ref : nat) (d : dict) (q : Q) :
  h !! ref = Some d → stored_score d = Some q →
  passes h (Fin m) ref = Ok (bool_decide (m <= score_or_zero h ref)).
Proof.
  intros Hd Hq. unfold passes, deref, score_or_zero, py_get_default.
  rewrite Hd. bind_step. unfold stored_score in *.
  destruct (d !! "match_score") as [[| |[| | |x]| | |]|]; try done;
    simpl; by rewrite Qle_bool_decide.
Qed.

(** C6, as the code has it.  [filter_opportunities] checks none of its
    parameters.  Whatever number [min_score] is, inside [0,100] or not, and
    for every [max_results] that is not negative, it returns, in the order
    of the input, the records whose score (0 when the record has none) is at
    least [min_score], cut after [max_results] items: every returned record
    meets the threshold, equality included, and every record that meets it
    is returned unless the cut removes it. *)
Theorem filter_opportunities_spec (h : heap) (opps : list nat)
        (min_score : Q) (max_results : Z) :
  (∀ ref, ref ∈ opps →
          ∃ d q, h !! ref = Some d ∧ stored_score d = Some q) →
  (0 ≤ max_results)%Z →
  ∃ res,
    filter_opportunities h opps (Fin min_score) max_results = Ok res ∧
    res = take (Z.to_nat max_results)
               (filter (λ ref, min_score <= score_or_zero h ref) opps) ∧
    (Z.of_nat (length res) ≤ max_results)%Z ∧
    res `sublist_of` opps ∧
    (∀ ref, ref ∈ res → min_score <= score_or_zero h ref) ∧
    (∀ ref, ref ∈ opps → min_score <= score_or_zero h ref →
            (Z.of_nat (length opps) ≤ max_results)%Z → ref ∈ res).
Proof.
  intros Hnum Hmax. unfold filter_opportunities.
  rewrite (filterR_decide _ (λ ref, min_score <= score_or_zero h ref)).
  2:{ intros ref Hin. destruct (Hnum ref Hin) as (d & q & Hd & Hq).
      by eapply passes_score_or_zero. }
  bind_step. rewrite py_slice_to_nonneg by done.
  eexists; split; [reflexivity|]. split; [done|]. split; [|split; [|split]].
  - rewrite length_take. lia.
  - etrans; [apply sublist_take | apply sublist_filter].
  - intros ref Hin%subseteq_take.
    by apply list_elem_of_filter in Hin as [? _].
  - intros ref Hin Hle Hlen. rewrite take_ge.
    + by apply list_elem_of_filter.
    + pose proof (length_filter
                    (λ ref, min_score <= score_or_zero h ref) opps). lia.
Qed.

Lemma passes_missing_score (h : heap) (min_score : pyfloat) (ref : nat)
      (d : dict) :
  h !! ref = Some d → d !! "match_score" = None →
  passes h min_score ref = Ok (fleb min_score (Fin 0)).
Proof.
  intros Hd Hms. unfold passes, deref, py_get_default.
  rewrite Hd. bind_step. by rewrite Hms.
Qed.

Lemma passes_insert_zero (h : heap) (min_score : pyfloat) (ref : nat)
      (d : dict) (ref' : nat) :
  h !! ref = Some d → d !! "match_score" = None →
  passes (<[ref := <["match_score" := VNum (Fin 0)]> d]> h) min_score ref'
  = passes h min_score ref'.
Proof.
  intros Hd Hms. unfold passes, deref, py_get_default.
  destruct (decide (ref = ref')) as [<-|Hne].
  - rewrite lookup_insert_eq, Hd. bind_step.
    by rewrite lookup_insert_eq, Hms.
  - by rewrite lookup_insert_ne.
Qed.

Lemma py_slice_to_subseteq {A : Type} (l : list A) (n : Z) :
  py_slice_to l n ⊆ l.
Proof. unfold py_slice_to. destruct (0 <=? n)%Z; apply subseteq_take. Qed.

Lemma fltb_zero_fleb (x : pyfloat) :
  fltb (Fin 0) x = true → fleb x (Fin 0) = false.
Proof.
  destruct x as [| | |q]; simpl; try done.
  by intros ->%negb_true_iff.
Qed.

Lemma feqb_zero_fleb (x : pyfloat) :
  feqb x (Fin 0) = true → fleb x (Fin 0) = true.
Proof.
  destruct x as [| | |q]; simpl; try done.
  rewrite Qeq_bool_iff, Qle_bool_iff. intros ->. lra.
Qed.

(** C10.  A record without [match_score] is filtered as if its score were 0:
    it is dropped for every [min_score] above 0 and kept by the threshold
    for [min_score] equal to 0 (and then returned, unless the cut at
    [max_results] removes it); writing a score of 0 into the record changes
    nothing in the result. *)
Theorem filter_missing_score_is_zero (h : heap) (opps : list nat)
        (min_score : pyfloat) (max_results : Z) (res : list nat)
        (ref : nat) (d : dict) :
  h !! ref = Some d → d !! "match_score" = None →
  filter_opportunities h opps min_score max_results = Ok res →
  ∃ filtered,
    filterR (passes h min_score) opps = Ok filtered ∧
    res = py_slice_to filtered max_results ∧
    (fltb (Fin 0) min_score = true → (ref ∉ filtered) ∧ (ref ∉ res)) ∧
    (feqb min_score (Fin 0) = true → ref ∈ opps →
     ref ∈ filtered ∧
     ((Z.of_nat (length opps) ≤ max_results)%Z → ref ∈ res)) ∧
    filter_opportunities (<[ref := <["match_score" := VNum (Fin 0)]> d]> h)
      opps min_score max_results = Ok res.
Proof.
  intros Hd Hms H. unfold filter_opportunities in H.
  apply bind_Ok in H as (filtered & Hf & H). injection H as <-.
  exists filtered. do 2 (split; [done|]).
  pose proof (passes_missing_score h min_score ref d Hd Hms) as Hp.
  pose proof (filterR_Ok _ _ _ Hf) as ->.
  split; [|split].
  - intros Hlt%fltb_zero_fleb. rewrite Hlt in Hp.
    assert (Hnin : ref ∉ (filter
              (λ x, match passes h min_score x with
                    | Ok b => b | Raise _ => false end = true) opps)).
    { rewrite list_elem_of_filter, Hp. by intros [? _]. }
    split; [done|]. intros Hin%py_slice_to_subseteq. done.
  - intros Heq%feqb_zero_fleb Hin. rewrite Heq in Hp.
    assert (Hin' : ref ∈ (filter
              (λ x, match passes h min_score x with
                    | Ok b => b | Raise _ => false end = true) opps)).
    { rewrite list_elem_of_filter, Hp. done. }
    split; [done|]. intros Hlen.
    rewrite py_slice_to_nonneg by lia. rewrite take_ge; [done|].
    pose proof (length_filter
      (λ x, match passes h min_score x with
            | Ok b => b | Raise _ => false end = true) opps). lia.
  - unfold filter_opportunities.
    rewrite (filterR_ext _ (passes h min_score)).
    + by rewrite Hf.
    + intros x _. by apply passes_insert_zero.
Qed.

(** ** Totality on well-formed inputs *)

Lemma field_ok_cases (d : dict) (k : string) (p : value → bool) :
  field_ok d k p = true →
  d !! k = None ∨ ∃ v, d !! k = Some v ∧ p v = true.
Proof. unfold field_ok. destruct (d !! k); eauto. Qed.

Lemma field_is_cases (d : dict) (k : string) (p : value → bool) :
  field_is d k p = true → ∃ v, d !! k = Some v ∧ p v = true.
Proof. unfold field_is. destruct (d !! k); [eauto | done]. Qed.

Lemma is_str_list_inv (v : value) :
  is_str_list v = true → ∃ l : list string, v = VList (VStr <$> l).
Proof.
  destruct v as [| | | |l|]; try done. simpl. intros H.
  induction l as [|x l IH]; [by exists []|].
  simpl in H. apply andb_true_iff in H as [Hx Hl].
  destruct x; try done. destruct (IH Hl) as [l' [= ->]].
  by exists (s :: l').
Qed.

Lemma mapR_as_str_strs (l : list string) : mapR as_str (VStr <$> l) = Ok l.
Proof. induction l as [|s l IH]; csimpl; [done|]. by rewrite IH. Qed.

Lemma py_join_strs (sep : string) (l : list string) :
  py_join sep (VList (VStr <$> l)) = Ok (String.concat sep l).
Proof. unfold py_join. simpl. by rewrite mapR_as_str_strs. Qed.

Lemma field_strs (d : dict) (k : string) :
  field_is d k is_str_list = true →
  ∃ l : list string, d !! k = Some (VList (VStr <$> l)).
Proof.
  intros (v & Hv & Hs)%field_is_cases.
  apply is_str_list_inv in Hs as [l ->]. eauto.
Qed.

Lemma join_field_total (sep : string) (d : dict) (k : string) :
  field_ok d k is_str_list = true →
  ∃ s, py_join sep (py_get_default d k (VList [])) = Ok s.
Proof.
  unfold py_get_default.
  intros [-> | (v & -> & Hs)]%field_ok_cases; simpl; [by eexists|].
  apply is_str_list_inv in Hs as [l ->]. rewrite py_join_strs. eauto.
Qed.

Lemma opt_str_lower_total (d : dict) (k dflt : string) :
  field_ok d k is_opt_str = true →
  ∃ v s, py_or (py_get d k) (VStr dflt) = Ok v ∧ py_lower v = Ok s.
Proof.
  unfold py_get.
  intros [-> | (v & -> & Hs)]%field_ok_cases; simpl.
  - do 2 eexists; split; reflexivity.
  - destruct v as [| | |s| |]; try done; simpl.
    + do 2 eexists; split; reflexivity.
    + destruct s; do 2 eexists; split; reflexivity.
Qed.

Lemma opt_bool_truthy_total (d : dict) (k : string) :
  field_ok d k is_opt_bool = true → ∃ b, py_truthy (py_get d k) = Ok b.
Proof.
  unfold py_get.
  intros [-> | (v & -> & Hs)]%field_ok_cases; simpl; [eauto|].
  destruct v; try done; simpl; eauto.
Qed.

Lemma opt_str_truthy_total (d : dict) (k : string) :
  field_ok d k is_opt_str = true → ∃ b, py_truthy (py_get d k) = Ok b.
Proof.
  unfold py_get.
  intros [-> | (v & -> & Hs)]%field_ok_cases; simpl; [eauto|].
  destruct v; try done; simpl; eauto.
Qed.

Lemma field_bool (d : dict) (k : string) :
  field_is d k is_bool = true → ∃ b, d !! k = Some (VBool b).
Proof.
  intros (v & Hv & Hs)%field_is_cases. destruct v; try done. eauto.
Qed.

Lemma field_num (d : dict) (k : string) :
  field_is d k is_num = true → ∃ x, d !! k = Some (VNum x).
Proof.
  intros (v & Hv & Hs)%field_is_cases. destruct v; try done. eauto.
Qed.

Section Totality.

Variable encode : string → list Q.
Variable np_sqrt : Q → Q.

Lemma _match_location_total (opp profile : dict) :
  field_is profile "remote_only" is_bool = true →
  field_is profile "preferred_locations" is_str_list = true →
  field_ok opp "remote" is_opt_bool = true →
  field_ok opp "location" is_opt_str = true →
  ∃ x, _match_location opp profile = Ok x.
Proof.
  intros [ro Hro]%field_bool [prefs Hprefs]%field_strs
         [r Hr]%opt_bool_truthy_total
         (v & s & Hv & Hs)%(opt_str_lower_total _ _ "").
  unfold _match_location, py_index, py_and_cond.
  rewrite Hro, Hprefs. bind_step. simpl py_truthy. bind_step.
  rewrite Hr, Hv. bind_step. rewrite Hs. bind_step.
  simpl py_iter. bind_step. rewrite mapR_py_lower_strs. bind_step.
  destruct ro, r; simpl; try by eexists.
  all: by destruct (existsb _ _); eexists.
Qed.

Lemma _match_type_total (opp profile : dict) :
  field_is profile "preferred_types" is_str_list = true →
  field_ok opp "type" is_opt_str = true →
  ∃ x, _match_type opp profile = Ok x.
Proof.
  intros [types Htypes]%field_strs
         (v & s & Hv & Hs)%(opt_str_lower_total _ _ "job").
  unfold _match_type, py_index.
  rewrite Hv. bind_step. rewrite Hs. bind_step. rewrite Htypes. bind_step.
  simpl py_in. bind_step. by destruct (existsb _ _); eexists.
Qed.

Lemma _match_experience_total (opp profile : dict) :
  field_is profile "experience_years" is_num = true →
  field_ok opp "description" is_opt_str = true →
  field_ok opp "requirements" is_str_list = true →
  ∃ x, _match_experience opp profile = Ok x.
Proof.
  intros [e He]%field_num
         (v & s & Hv & Hs)%(opt_str_lower_total _ _ "")
         [reqs Hreqs]%(join_field_total " ").
  unfold _match_experience, py_index.
  rewrite Hv. bind_step. rewrite Hs. bind_step. rewrite Hreqs. bind_step.
  rewrite He. bind_step. simpl py_num. bind_step.
  repeat (destruct (any_in _ _); [by eexists|]). by eexists.
Qed.

Lemma _match_company_total (opp profile : dict) :
  field_is profile "target_companies" is_str_list = true →
  field_ok opp "company" is_opt_str = true →
  ∃ x, _match_company opp profile = Ok x.
Proof.
  intros [cs Hcs]%field_strs
         (v & s & Hv & Hs)%(opt_str_lower_total _ _ "").
  unfold _match_company, py_index.
  rewrite Hcs. bind_step. rewrite py_truthy_list. bind_step.
  destruct (negb (negb _)); [by eexists|].
  rewrite Hv. bind_step. rewrite Hs. bind_step.
  simpl py_iter. bind_step. rewrite mapR_py_lower_strs. bind_step.
  by destruct (existsb _ _); eexists.
Qed.

Lemma str_field_get (d : dict) (k : string) :
  field_ok d k is_str = true → ∃ s, py_get_default d k (VStr "") = VStr s.
Proof.
  unfold py_get_default.
  intros [-> | (v & -> & Hs)]%field_ok_cases; simpl; [by eexists|].
  destruct v; try done. by eexists.
Qed.

Lemma _match_keywords_total (opp profile : dict) :
  field_is profile "keywords" is_str_list = true →
  field_ok opp "title" is_str = true →
  field_ok opp "description" is_str = true →
  field_ok opp "skills" is_str_list = true →
  ∃ x, _match_keywords opp profile = Ok x.
Proof.
  intros [kws Hkws]%field_strs [title Ht]%str_field_get
         [desc Hd]%str_field_get [skills Hsk]%(join_field_total " ").
  unfold _match_keywords, py_index.
  rewrite Hkws. bind_step. rewrite py_truthy_list. bind_step.
  destruct (negb (negb _)); [by eexists|].
  rewrite Hsk. bind_step. rewrite Ht, Hd.
  change (VList [VStr title; VStr desc; VStr skills])
    with (VList (VStr <$> [title; desc; skills])).
  rewrite py_join_strs. bind_step.
  simpl py_iter. bind_step. rewrite mapR_py_lower_strs. bind_step.
  destruct (bool_decide _) eqn:E; [by eexists|].
  apply bool_decide_eq_false in E. unfold py_truediv.
  destruct (Z.of_nat (length (lower <$> kws)) =? 0)%Z eqn:Ez.
  - apply Z.eqb_eq in Ez. destruct kws; [done | simpl in Ez; lia].
  - bind_step. by eexists.
Qed.

Lemma _apply_modifiers_total (b : pyfloat) (opp profile : dict) :
  field_is profile "salary_min" is_num = true →
  field_ok opp "is_still_open" is_opt_bool = true →
  field_ok opp "compensation" is_opt_str = true →
  ∃ x, _apply_modifiers b opp profile = Ok x.
Proof.
  intros [sal Hsal]%field_num Hopen [c Hc]%opt_str_truthy_total.
  unfold _apply_modifiers, py_and_cond.
  assert (∃ o, py_truthy (py_get_default opp "is_still_open" (VBool true))
               = Ok o) as [o Ho].
  { unfold py_get_default.
    apply field_ok_cases in Hopen as [-> | (v & -> & Hv)]; simpl;
      [by eexists|]. destruct v; try done; by eexists. }
  rewrite Ho. bind_step. rewrite Hc. bind_step.
  unfold py_get. rewrite Hsal. simpl.
  destruct c; [|by eexists]. destruct sal; by eexists.
Qed.

End Totality.

Section ScoreTotal.

Variable encode : string → list Q.
Variable np_sqrt : Q → Q.

(** The provider returns vectors of one fixed dimension. *)
Hypothesis encode_dim : ∀ s, length (encode s) = length (encode "").

Lemma skill_factor_total (opp profile : dict) :
  wf_profile encode profile = true →
  field_ok opp "skills" is_str_list = true →
  ∃ x, skill_factor encode np_sqrt opp profile = Ok x.
Proof.
  unfold wf_profile. rewrite !andb_true_iff.
  intros (_ & Hemb) Hskills. unfold skill_factor, py_get, py_index.
  apply field_ok_cases in Hskills as [-> | (v & -> & Hv)]; simpl;
    [by eexists|].
  apply is_str_list_inv in Hv as [l ->]. rewrite py_truthy_list. bind_step.
  destruct (negb (bool_decide _)); simpl; [|by eexists].
  destruct (profile !! "skills_embedding") as [emb|]; simpl; [|by eexists].
  destruct emb as [| | | | |v]; try done. simpl.
  rewrite py_join_strs. bind_step. simpl.
  unfold _cosine_similarity, np_dot.
  apply Nat.eqb_eq in Hemb. rewrite encode_dim, Hemb, Nat.eqb_refl.
  by eexists.
Qed.

Lemma opportunity_record_fields (opp : dict) :
  opportunity_record opp = true →
  field_ok opp "title" is_str = true ∧
  field_ok opp "company" is_opt_str = true ∧
  field_ok opp "type" is_opt_str = true ∧
  field_ok opp "location" is_opt_str = true ∧
  field_ok opp "remote" is_opt_bool = true ∧
  field_ok opp "description" is_opt_str = true ∧
  field_ok opp "requirements" is_str_list = true ∧
  field_ok opp "skills" is_str_list = true ∧
  field_ok opp "compensation" is_opt_str = true ∧
  field_ok opp "is_still_open" is_opt_bool = true.
Proof.
  unfold opportunity_record. rewrite !andb_true_iff.
  intros (((((((((Ht & Hc) & ?) & ?) & ?) & ?) & ?) & ?) & ?) & ?).
  repeat split; try done.
  - unfold field_is, field_ok in *. by destruct (opp !! "title").
  - unfold field_is, field_ok in *.
    destruct (opp !! "company") as [[]|]; done.
Qed.

(** Scoring returns, with a value between 0 and 100, on every opportunity
    record whose description is not [None] and every well-formed
    profile. *)
Theorem calculate_match_score_total (opp profile : dict) :
  wf_profile encode profile = true →
  opportunity_record opp = true →
  opp !! "description" ≠ Some VNone →
  ∃ q, calculate_match_score encode np_sqrt opp profile = Ok (Fin q) ∧
       0 <= q ∧ q <= 100.
Proof.
  intros Hp Hopp Hdesc.
  destruct (opportunity_record_fields _ Hopp)
    as (Ht & Hc & Hty & Hl & Hr & Hd & Hreq & Hsk & Hcomp & Hopen).
  assert (Hd' : field_ok opp "description" is_str = true).
  { unfold field_ok in *. destruct (opp !! "description") as [[]|]; done. }
  pose proof Hp as Hp'. unfold wf_profile in Hp'.
  rewrite !andb_true_iff in Hp'.
  destruct Hp' as (((((((Hro & Hpl) & Hpt) & Hex) & Htc) & Hkw) & Hsal) & _).
  destruct (skill_factor_total _ _ Hp Hsk) as [[ss ws] Hs].
  destruct (_match_location_total _ _ Hro Hpl Hr Hl) as [l Hl'].
  destruct (_match_type_total _ _ Hpt Hty) as [t Ht'].
  destruct (_match_experience_total _ _ Hex Hd Hreq) as [e He'].
  destruct (_match_company_total _ _ Htc Hc) as [c Hc'].
  destruct (_match_keywords_total _ _ Hkw Ht Hd' Hsk) as [k Hk'].
  set (scores := (ss ++ [l; t; e; c; k])%list).
  set (weights :=
         (ws ++ [Fin 0.20; Fin 0.15; Fin 0.10; Fin 0.10; Fin 0.05])%list).
  destruct (_apply_modifiers_total (weighted_total scores weights) _ _
              Hsal Hopen Hcomp) as [m Hm].
  assert (Hscore : calculate_match_score encode np_sqrt opp profile
                   = Ok (py_max (Fin 0) (py_min (Fin 100) m))).
  { unfold calculate_match_score, factor_lists.
    rewrite Hs. bind_step. rewrite Hl', Ht', He', Hc', Hk'. bind_step.
    fold scores weights. by rewrite Hm. }
  destruct (clamp_in_range m) as (q & Hq & Hq0 & Hq1).
  exists q. by rewrite Hscore, Hq.
Qed.

End ScoreTotal.

Section ProfileTotal.

Variable encode : string → list Q.
Hypothesis encode_dim : ∀ s, length (encode s) = length (encode "").

Lemma get_default_ok (d : dict) (k : string) (p : value → bool)
      (dflt : value) :
  field_ok d k p = true → p dflt = true → p (py_get_default d k dflt) = true.
Proof.
  unfold field_ok, py_get_default. by destruct (d !! k).
Qed.

Lemma wf_profile_insert_text (k : string) (v : value) (profile : dict) :
  k = "skills_text" ∨ k = "interests_text" ∨ k = "interests_embedding" →
  wf_profile encode (<[k := v]> profile) = wf_profile encode profile.
Proof.
  intros Hk. unfold wf_profile, field_is.
  by destruct Hk as [-> | [-> | ->]]; rewrite !lookup_insert_ne by done.
Qed.

Lemma wf_profile_insert_embedding (text : string) (profile : dict) :
  wf_profile encode profile = true →
  wf_profile encode (<["skills_embedding" := VArr (encode text)]> profile)
  = true.
Proof.
  unfold wf_profile, field_is. rewrite !andb_true_iff.
  rewrite !lookup_insert_ne by done. rewrite lookup_insert_eq.
  intros (H & _). split; [done|]. apply Nat.eqb_eq, encode_dim.
Qed.

(** Profile construction returns on well-formed user data, and what it
    returns is a well-formed profile. *)
Theorem create_user_profile_total (user_data : dict) :
  wf_user_data user_data = true →
  ∃ profile,
    create_user_profile encode user_data = Ok profile ∧
    wf_profile encode profile = true.
Proof.
  unfold wf_user_data. rewrite !andb_true_iff.
  intros ((((((((Hsk & Hin) & Hex) & Hlo) & Hty) & Hro) & Hco) & Hsa) & Hkw).
  unfold create_user_profile, py_index.
  set (base := <["skills" := _]> _).
  assert (Hbase : wf_profile encode base = true).
  { unfold wf_profile, field_is, base.
    repeat (rewrite lookup_insert_eq || rewrite lookup_insert_ne by done).
    rewrite lookup_empty, !andb_true_iff.
    repeat split; by apply get_default_ok. }
  assert (Hbs : base !! "skills"
                = Some (py_get_default user_data "skills" (VList [])))
    by done.
  assert (Hbi : base !! "interests"
                = Some (py_get_default user_data "interests" (VList [])))
    by done.
  clearbody base. rewrite Hbs. bind_step.
  pose proof (get_default_ok _ _ _ (VList []) Hsk eq_refl) as Hs1.
  pose proof (get_default_ok _ _ _ (VList []) Hin eq_refl) as Hi1.
  apply is_str_list_inv in Hs1 as [skills ->].
  apply is_str_list_inv in Hi1 as [interests Hi1].
  rewrite py_truthy_list. bind_step.
  assert (∃ p1, (if negb (bool_decide (VStr <$> skills = []))
                 then skills_text ← py_join ", " (VList (VStr <$> skills));
                      Ok (<["skills_embedding" := VArr (encode skills_text)]>
                            (<["skills_text" := VStr skills_text]> base))
                 else Ok base) = Ok p1 ∧
                wf_profile encode p1 = true ∧
                p1 !! "interests" = base !! "interests") as (p1 & -> & Hp1 & Hp1i).
  { destruct (negb _).
    - rewrite py_join_strs. bind_step. eexists. split; [done|]. split.
      + apply wf_profile_insert_embedding.
        by rewrite wf_profile_insert_text by auto.
      + by rewrite !lookup_insert_ne by done.
    - by exists base. }
  bind_step. rewrite Hp1i, Hbi. bind_step. rewrite Hi1, py_truthy_list.
  bind_step. destruct (negb _).
  - rewrite py_join_strs. bind_step. eexists. split; [done|].
    by rewrite !wf_profile_insert_text by auto.
  - by exists p1.
Qed.

End ProfileTotal.

Section RankTotal.

Variable encode : string → list Q.
Variable np_sqrt : Q → Q.
Hypothesis encode_dim : ∀ s, length (encode s) = length (encode "").

Lemma scorable_insert_score (v : value) (d : dict) :
  scorable d → scorable (<["match_score" := v]> d).
Proof.
  unfold scorable, opportunity_record, field_is, field_ok.
  by rewrite !lookup_insert_ne by done.
Qed.

Lemma score_loop_total (opps : list nat) (profile : dict) (h : heap) :
  wf_profile encode profile = true →
  (∀ ref, ref ∈ opps → ∃ d, h !! ref = Some d ∧ scorable d) →
  ∃ h', score_loop encode np_sqrt opps profile h = (h', Ok ()).
Proof.
  intros Hp. revert h.
  induction opps as [|opp rest IH]; intros h Hall; simpl; [by eexists|].
  destruct (Hall opp) as (d & Hd & Hrec & Hdesc); [by left|].
  unfold deref. rewrite Hd.
  destruct (calculate_match_score_total encode np_sqrt encode_dim
              _ _ Hp Hrec Hdesc) as (q & -> & _).
  apply IH. intros ref Hin.
  destruct (decide (ref = opp)) as [->|Hne].
  - rewrite lookup_insert_eq. eexists. split; [done|].
    by apply scorable_insert_score.
  - rewrite lookup_insert_ne by done. apply Hall. by right.
Qed.

(** Ranking returns on every non-empty list of scorable records. *)
Theorem rank_opportunities_total (opps : list nat) (profile : dict)
        (h : heap) :
  wf_profile encode profile = true →
  (∀ ref, ref ∈ opps → ∃ d, h !! ref = Some d ∧ scorable d) →
  opps ≠ [] →
  ∃ h' ranked,
    rank_opportunities encode np_sqrt opps profile h = (h', Ok ranked).
Proof.
  intros Hp Hall Hne.
  destruct (score_loop_total _ _ _ Hp Hall) as [h' Hloop].
  exists h'. unfold rank_opportunities. rewrite Hloop. bind_step.
  assert (Hscored : ∀ ref, ref ∈ opps →
              match_score_key h' ref = Ok (match_score_of h' ref, ref) ∧
              ∃ d, h' !! ref = Some d ∧ is_Some (d !! "match_score")).
  { intros ref Hin.
    destruct (score_loop_spec _ _ _ _ _ _ Hloop ref) as [Hs _].
    destruct (Hs Hin) as (d & s & _ & _ & Hh').
    destruct (match_score_of_scored _ _ _ _ Hh') as [-> ->].
    split; [done|]. eexists. split; [done|].
    by rewrite lookup_insert_eq. }
  rewrite (mapR_ext_Ok _ (λ ref, (match_score_of h' ref, ref)))
    by (intros; by apply Hscored).
  bind_step.
  set (ranked := snd <$> py_sorted _ true).
  assert (Hperm : ranked ≡ₚ opps).
  { subst ranked.
    by rewrite py_sorted_perm, (keyed_fmap_snd (match_score_of h')). }
  destruct ranked as [|top rest] eqn:Hr.
  - apply Permutation_nil_l in Hperm. by subst.
  - bind_step.
    destruct (Hscored top) as (_ & d & Hd & [v Hv]).
    { rewrite <- Hperm. by left. }
    unfold deref, py_index. rewrite Hd. bind_step. rewrite Hv.
    by eexists.
Qed.

End RankTotal.

(** * Worked instances *)


Lemma stub_encode_dim (s : string) :
  length (stub_encode s) = length (stub_encode "").
Proof. unfold stub_encode. by destruct (str_contains _ (lower s)). Qed.

(** C1, at a record whose optional description is [None]: with a profile
    that has keywords, [_match_keywords] joins the [None] into the search
    text and the score raises [TypeError], although the record is a
    well-formed opportunity and [_match_experience] guards the same field. *)
Theorem score_raises_on_null_description (encode : string → list Q)
        (np_sqrt : Q → Q) :
  opportunity_record opp_null_description = true ∧
  wf_user_data sample_user = true ∧
  ∃ profile,
    create_user_profile encode sample_user = Ok profile ∧
    _match_experience opp_null_description profile = Ok (Fin 50) ∧
    _match_keywords opp_null_description profile = Raise TypeError ∧
    calculate_match_score encode np_sqrt opp_null_description profile
    = Raise TypeError.
Proof.
  split; [done|]. split; [done|].
  eexists. split; [reflexivity|]. by vm_compute.
Qed.

(** On the same profile, a record with a description scores 92.5. *)
Lemma score_sample :
  ∃ q, calculate_match_score stub_encode stub_sqrt opp_austin sample_profile
       = Ok (Fin q) ∧ q == 92.5.
Proof. eexists. split; [by vm_compute | done]. Qed.

(** Membership in a short literal list, case by case. *)
Ltac each_member H :=
  repeat (apply elem_of_cons in H as [->|H]);
  [.. | by apply elem_of_nil in H].

Lemma aggregate_is_weighted_sum_witness :
  factor_lists stub_encode stub_sqrt opp_closed sample_profile
  = Ok ([Fin 100; Fin 100; Fin 100; Fin 100; Fin 50; Fin (100 # 2)],
        [Fin 0.40; Fin 0.20; Fin 0.15; Fin 0.10; Fin 0.10; Fin 0.05]) ∧
  ∃ l t e c k : Q,
    (_match_location opp_closed sample_profile = Ok (Fin l) ∧
     _match_type opp_closed sample_profile = Ok (Fin t) ∧
     _match_experience opp_closed sample_profile = Ok (Fin e) ∧
     _match_company opp_closed sample_profile = Ok (Fin c) ∧
     _match_keywords opp_closed sample_profile = Ok (Fin k)) ∧
    ((has_skills opp_closed ∧ has_skills_embedding sample_profile ∧
      ∃ sk,
        skill_factor stub_encode stub_sqrt opp_closed sample_profile
        = Ok ([sk], [Fin 0.40]) ∧
        [Fin 100; Fin 100; Fin 100; Fin 100; Fin 50; Fin (100 # 2)]
        = [sk; Fin l; Fin t; Fin e; Fin c; Fin k] ∧
        [Fin 0.40; Fin 0.20; Fin 0.15; Fin 0.10; Fin 0.10; Fin 0.05]
        = [Fin 0.40; Fin 0.20; Fin 0.15; Fin 0.10; Fin 0.10; Fin 0.05] ∧
        feq (weighted_total
               [Fin 100; Fin 100; Fin 100; Fin 100; Fin 50; Fin (100 # 2)]
               [Fin 0.40; Fin 0.20; Fin 0.15; Fin 0.10; Fin 0.10; Fin 0.05])
            (weighted_sum_spec (Some sk) l t e c k))
     ∨
     (¬ (has_skills opp_closed ∧ has_skills_embedding sample_profile) ∧
      [Fin 100; Fin 100; Fin 100; Fin 100; Fin 50; Fin (100 # 2)]
      = [Fin l; Fin t; Fin e; Fin c; Fin k] ∧
      [Fin 0.40; Fin 0.20; Fin 0.15; Fin 0.10; Fin 0.10; Fin 0.05]
      = [Fin 0.20; Fin 0.15; Fin 0.10; Fin 0.10; Fin 0.05] ∧
      feq (py_sum [Fin 0.40; Fin 0.20; Fin 0.15; Fin 0.10; Fin 0.10; Fin 0.05])
          (Fin 0.60) ∧
      feq (weighted_total
             [Fin 100; Fin 100; Fin 100; Fin 100; Fin 50; Fin (100 # 2)]
             [Fin 0.40; Fin 0.20; Fin 0.15; Fin 0.10; Fin 0.10; Fin 0.05])
          (weighted_sum_spec None l t e c k) ∧
      ∃ a, weighted_total
             [Fin 100; Fin 100; Fin 100; Fin 100; Fin 50; Fin (100 # 2)]
             [Fin 0.40; Fin 0.20; Fin 0.15; Fin 0.10; Fin 0.10; Fin 0.05]
           = Fin a ∧ 0 <= a ∧ a <= 60)).
Proof.
  split; [vm_compute; reflexivity|].
  apply (aggregate_is_weighted_sum stub_encode stub_sqrt opp_closed
           sample_profile).
  vm_compute; reflexivity.
Defined.

Lemma closed_score_is_half_witness :
  opp_closed !! "is_still_open" = Some (VBool false) ∧
  calculate_match_score stub_encode stub_sqrt_low opp_closed
    sample_profile_full
  = Ok (Fin (4940300000000000000 # 98010000000000000)) ∧
  ∃ (scores weights : list pyfloat) (agg : pyfloat),
    factor_lists stub_encode stub_sqrt_low opp_closed sample_profile_full
    = Ok (scores, weights) ∧
    agg = weighted_total scores weights ∧
    (agg = PInf ∨ ∃ a, agg = Fin a ∧ 0 <= a) ∧
    _apply_modifiers agg opp_closed sample_profile_full
    = Ok (fmul agg (Fin 0.5)) ∧
    Fin (4940300000000000000 # 98010000000000000)
    = py_max (Fin 0) (py_min (Fin 100) (fmul agg (Fin 0.5))) ∧
    (∀ a, agg = Fin a → a <= 200 →
          feq (Fin (4940300000000000000 # 98010000000000000))
              (Fin (a * 0.5))) ∧
    (sqrt_tolerant stub_sqrt_low →
     ∃ a, agg = Fin a ∧ 0 <= a ∧ a <= 110 ∧
          feq (Fin (4940300000000000000 # 98010000000000000))
              (Fin (a * 0.5))) ∧
    (factor_lists stub_encode stub_sqrt_low
       (<["is_still_open" := VBool true]> opp_closed) sample_profile_full
     = Ok (scores, weights) ∧
     _apply_modifiers agg (<["is_still_open" := VBool true]> opp_closed)
       sample_profile_full
     = Ok agg ∧
     calculate_match_score stub_encode stub_sqrt_low
       (<["is_still_open" := VBool true]> opp_closed) sample_profile_full
     = Ok (py_max (Fin 0) (py_min (Fin 100) agg))) ∧
    (∀ (compensation salary_min : value) (s : pyfloat),
       calculate_match_score stub_encode stub_sqrt_low
         (<["compensation" := compensation]> opp_closed)
         (<["salary_min" := salary_min]> sample_profile_full) = Ok s →
       s = Fin (4940300000000000000 # 98010000000000000)).
Proof.
  split; [vm_compute; reflexivity|].
  split; [vm_compute; reflexivity|].
  apply (closed_score_is_half stub_encode stub_sqrt_low opp_closed
           sample_profile_full).
  - vm_compute; reflexivity.
  - vm_compute; reflexivity.
Defined.

(** At this instance the clamp is at work: the aggregate is above 100, the
    open twin is cut to 100 and the closed score is half the aggregate, not
    half the open score. *)
Lemma closed_score_sample :
  ∃ a c,
    (∃ scores weights,
       factor_lists stub_encode stub_sqrt_low opp_closed sample_profile_full
       = Ok (scores, weights) ∧ weighted_total scores weights = Fin a) ∧
    calculate_match_score stub_encode stub_sqrt_low opp_closed
      sample_profile_full = Ok (Fin c) ∧
    calculate_match_score stub_encode stub_sqrt_low
      (<["is_still_open" := VBool true]> opp_closed) sample_profile_full
    = Ok (Fin 100) ∧
    100 < a ∧ c == a * 0.5 ∧ 50 < c.
Proof.
  exists (988060000000000000 # 9801000000000000),
         (4940300000000000000 # 98010000000000000).
  split; [do 2 eexists; split; vm_compute; reflexivity|].
  split; [vm_compute; reflexivity|].
  split; [vm_compute; reflexivity|].
  split; [done|]. split; done.
Qed.

Lemma _match_location_spec_witness :
  sample_profile !! "remote_only" = Some (VBool false) ∧
  sample_profile !! "preferred_locations" = Some (VList (VStr <$> ["Austin"])) ∧
  opt_bool_field opp_berlin "remote" true ∧
  opt_str_field opp_berlin "location" (Some "Berlin") ∧
  _match_location opp_berlin sample_profile
  = Ok (Fin (location_score_spec false true ["Austin"] (Some "Berlin"))).
Proof.
  assert (H1 : sample_profile !! "remote_only" = Some (VBool false))
    by (vm_compute; reflexivity).
  assert (H2 : sample_profile !! "preferred_locations"
               = Some (VList (VStr <$> ["Austin"])))
    by (vm_compute; reflexivity).
  assert (H3 : opt_bool_field opp_berlin "remote" true)
    by (left; vm_compute; reflexivity).
  assert (H4 : opt_str_field opp_berlin "location" (Some "Berlin"))
    by (vm_compute; reflexivity).
  repeat (split; [assumption|]).
  exact (_match_location_spec opp_berlin sample_profile false true
           ["Austin"] (Some "Berlin") H1 H2 H3 H4).
Defined.

Lemma create_user_profile_embeddings_witness :
  create_user_profile stub_encode sample_user = Ok sample_profile ∧
  (∀ skills : list value,
     sample_profile !! "skills" = Some (VList skills) →
     is_Some (sample_profile !! "skills_embedding") ↔ skills ≠ []) ∧
  (∀ interests : list value,
     sample_profile !! "interests" = Some (VList interests) →
     is_Some (sample_profile !! "interests_embedding") ↔ interests ≠ []).
Proof.
  split; [vm_compute; reflexivity|].
  apply (create_user_profile_embeddings stub_encode sample_user).
  vm_compute; reflexivity.
Defined.

Lemma rank_sample :
  rank_opportunities stub_encode stub_sqrt [0; 1; 2]%nat
    sample_profile sample_heap
  = (ranked_heap, Ok [1; 0; 2]%nat).
Proof. vm_compute; reflexivity. Qed.

Lemma rank_sorted_stable_witness :
  rank_opportunities stub_encode stub_sqrt [0; 1; 2]%nat
    sample_profile sample_heap
  = (ranked_heap, Ok [1; 0; 2]%nat) ∧
  [1; 0; 2]%nat ≡ₚ [0; 1; 2]%nat ∧
  (∀ ref, ref ∈ [0; 1; 2]%nat → in_range (match_score_of ranked_heap ref)) ∧
  StronglySorted
    (λ a b, fleb (match_score_of ranked_heap b) (match_score_of ranked_heap a)
            = true)
    [1; 0; 2]%nat ∧
  (∀ k : pyfloat,
     filter (λ ref, feqb (match_score_of ranked_heap ref) k = true)
            [1; 0; 2]%nat
     = filter (λ ref, feqb (match_score_of ranked_heap ref) k = true)
              [0; 1; 2]%nat).
Proof.
  split; [vm_compute; reflexivity|].
  apply (rank_sorted_stable stub_encode stub_sqrt [0; 1; 2]%nat
           sample_profile sample_heap ranked_heap [1; 0; 2]%nat).
  vm_compute; reflexivity.
Defined.

(** C4 as stated fails: ranking the sample store changes the record it is
    given, which had no [match_score] and has one afterwards. *)
Lemma rank_mutates_input :
  ∃ (h' : heap) (d d' : dict),
    rank_opportunities stub_encode stub_sqrt [1]%nat sample_profile sample_heap
    = (h', Ok [1]%nat) ∧
    sample_heap !! 1%nat = Some d ∧ h' !! 1%nat = Some d' ∧
    d !! "match_score" = None ∧
    d' !! "match_score" = Some (VNum (Fin (185000000000000 # 2000000000000))) ∧
    d' ≠ d.
Proof.
  eexists _, opp_austin, (<["match_score" := _]> opp_austin).
  split; [vm_compute; reflexivity|].
  split; [vm_compute; reflexivity|].
  split; [vm_compute; reflexivity|].
  split; [vm_compute; reflexivity|].
  split; [vm_compute; reflexivity|].
  intros Heq. apply (f_equal (λ m : dict, m !! "match_score")) in Heq.
  vm_compute in Heq. discriminate.
Qed.

Lemma rank_writes_match_score_only_witness :
  rank_opportunities stub_encode stub_sqrt [0; 1; 2]%nat
    sample_profile sample_heap
  = (ranked_heap, Ok [1; 0; 2]%nat) ∧
  [1; 0; 2]%nat ≡ₚ [0; 1; 2]%nat ∧
  (∀ ref, ref ∉ [0; 1; 2]%nat → ranked_heap !! ref = sample_heap !! ref) ∧
  (∀ ref, ref ∈ [0; 1; 2]%nat →
     ∃ d s, sample_heap !! ref = Some d ∧
            calculate_match_score stub_encode stub_sqrt d sample_profile
            = Ok s ∧
            ranked_heap !! ref = Some (<["match_score" := VNum s]> d) ∧
            ∀ k, k ≠ "match_score" →
                 (<["match_score" := VNum s]> d) !! k = d !! k).
Proof.
  split; [vm_compute; reflexivity|].
  apply (rank_writes_match_score_only stub_encode stub_sqrt [0; 1; 2]%nat
           sample_profile sample_heap ranked_heap [1; 0; 2]%nat).
  vm_compute; reflexivity.
Defined.

(** C6 as stated fails: a threshold of 150 and a negative count are both
    accepted, and a list comes back. *)
Lemma filter_accepts_out_of_range :
  filter_opportunities scored_heap [0; 1; 2]%nat (Fin 150) 50 = Ok [] ∧
  filter_opportunities scored_heap [0; 1; 2]%nat (Fin 0) (-1)
  = Ok [0; 1]%nat.
Proof. split; vm_compute; reflexivity. Qed.

Lemma filter_opportunities_spec_witness :
  (∀ ref, ref ∈ [0; 1; 2]%nat →
          ∃ d q, scored_heap !! ref = Some d ∧ stored_score d = Some q) ∧
  (0 ≤ 1)%Z ∧
  ∃ res,
    filter_opportunities scored_heap [0; 1; 2]%nat (Fin 40) 1 = Ok res ∧
    res = take (Z.to_nat 1)
               (filter (λ ref, 40 <= score_or_zero scored_heap ref)
                       [0; 1; 2]%nat) ∧
    (Z.of_nat (length res) ≤ 1)%Z ∧
    res `sublist_of` [0; 1; 2]%nat ∧
    (∀ ref, ref ∈ res → 40 <= score_or_zero scored_heap ref) ∧
    (∀ ref, ref ∈ [0; 1; 2]%nat → 40 <= score_or_zero scored_heap ref →
            (Z.of_nat (length [0; 1; 2]%nat) ≤ 1)%Z → ref ∈ res).
Proof.
  assert (H : ∀ ref, ref ∈ [0; 1; 2]%nat →
                     ∃ d q, scored_heap !! ref = Some d ∧
                            stored_score d = Some q).
  { intros ref Hin. each_member Hin; do 2 eexists; split;
      vm_compute; reflexivity. }
  split; [exact H|]. split; [lia|].
  apply (filter_opportunities_spec scored_heap [0; 1; 2]%nat 40 1 H).
  lia.
Defined.

(** On the sample store a threshold of 40 keeps the records scored 80 and
    40 and drops the one without a score; a count of 1 then cuts the second;
    a threshold of 150, outside the range, keeps none. *)
Lemma filter_sample :
  filter_opportunities scored_heap [0; 1; 2]%nat (Fin 40) 50
  = Ok [0; 1]%nat ∧
  filter_opportunities scored_heap [0; 1; 2]%nat (Fin 40) 1 = Ok [0]%nat ∧
  filter_opportunities scored_heap [0; 1; 2]%nat (Fin 41) 50 = Ok [0]%nat ∧
  filter_opportunities scored_heap [0; 1; 2]%nat (Fin 150) 50 = Ok [].
Proof. repeat split; vm_compute; reflexivity. Qed.

Lemma filter_missing_score_is_zero_witness :
  scored_heap !! 2%nat = Some opp_closed ∧
  opp_closed !! "match_score" = None ∧
  filter_opportunities scored_heap [0; 1; 2]%nat (Fin 0) 50
  = Ok [0; 1; 2]%nat ∧
  ∃ filtered,
    filterR (passes scored_heap (Fin 0)) [0; 1; 2]%nat = Ok filtered ∧
    [0; 1; 2]%nat = py_slice_to filtered 50 ∧
    (fltb (Fin 0) (Fin 0) = true →
     (2%nat ∉ filtered) ∧ (2%nat ∉ [0; 1; 2]%nat)) ∧
    (feqb (Fin 0) (Fin 0) = true → 2%nat ∈ [0; 1; 2]%nat →
     2%nat ∈ filtered ∧
     ((Z.of_nat (length [0; 1; 2]%nat) ≤ 50)%Z → 2%nat ∈ [0; 1; 2]%nat)) ∧
    filter_opportunities
      (<[2%nat := <["match_score" := VNum (Fin 0)]> opp_closed]> scored_heap)
      [0; 1; 2]%nat (Fin 0) 50 = Ok [0; 1; 2]%nat.
Proof.
  split; [vm_compute; reflexivity|].
  split; [vm_compute; reflexivity|].
  split; [vm_compute; reflexivity|].
  apply (filter_missing_score_is_zero scored_heap [0; 1; 2]%nat (Fin 0) 50
           [0; 1; 2]%nat 2%nat opp_closed).
  - vm_compute; reflexivity.
  - vm_compute; reflexivity.
  - vm_compute; reflexivity.
Defined.

(** * Further properties of the engine *)

(** ** Strings *)

Lemma prefix_app_l (w d r : string) :
  String.prefix w d = true → String.prefix w (d ++ r) = true.
Proof.
  revert d. induction w as [|c w IH]; intros d.
  { intros _. by destruct (d ++ r). }
  destruct d as [|c' d]; simpl; [done|].
  destruct (Ascii.ascii_dec c c'); [apply IH | done].
Qed.

Lemma str_contains_app_l (w d r : string) :
  str_contains w d = true → str_contains w (d ++ r) = true.
Proof.
  induction d as [|c d IH]; simpl.
  - rewrite orb_false_r. destruct w; [|done]. intros _. by destruct r.
  - intros [Hp | Hc]%orb_true_iff; apply orb_true_iff.
    + left. by apply (prefix_app_l w (String c d) r).
    + right. by apply IH.
Qed.

Lemma any_in_app_l (words : list string) (d r : string) :
  any_in words d = true → any_in words (d ++ r) = true.
Proof.
  unfold any_in. rewrite !existsb_exists.
  intros (w & Hin & Hw). exists w. split; [done|].
  by apply str_contains_app_l.
Qed.

Lemma lower_ascii_not_upper (c : ascii) : is_upper (lower_ascii c) = false.
Proof.
  unfold lower_ascii, is_upper.
  destruct ((65 <=? N_of_ascii c) && (N_of_ascii c <=? 90))%N eqn:E; [|done].
  apply andb_true_iff in E as [H1%N.leb_le H2%N.leb_le].
  rewrite N_ascii_embedding by lia.
  apply andb_false_iff. right. apply N.leb_gt. lia.
Qed.

Lemma lower_no_upper (s : string) : has_upper (lower s) = false.
Proof.
  induction s as [|c s IH]; simpl; [done|].
  by rewrite lower_ascii_not_upper, IH.
Qed.

Lemma existsb_strs (s : string) (l : list string) :
  existsb (λ v, match v with VStr t => String.eqb s t | _ => false end)
          (VStr <$> l)
  = existsb (String.eqb s) l.
Proof. induction l as [|x l IH]; csimpl; [done|]. by rewrite IH. Qed.

(** ** The type factor *)

Lemma py_lower_type (d : dict) (ty : option string) :
  opt_str_field d "type" ty →
  ∃ v, py_or (py_get d "type") (VStr "job") = Ok v ∧
       py_lower v = Ok (lower (effective_type ty)).
Proof.
  unfold py_get. destruct ty as [s|]; simpl.
  - intros ->. simpl. destruct s; simpl; eauto.
  - intros [-> | ->]; simpl; eauto.
Qed.

(** The type factor is 100 when the lower-cased type of the opportunity,
    with "job" standing in for a missing, [None] or empty type, is one of the
    preferred types exactly as the profile spells them, and 0 otherwise. *)
Theorem _match_type_typed (opp profile : dict) (ty : option string)
        (preferred : list string) :
  profile !! "preferred_types" = Some (VList (VStr <$> preferred)) →
  opt_str_field opp "type" ty →
  _match_type opp profile = Ok (Fin (type_score_spec ty preferred)).
Proof.
  intros Hpref Hty. destruct (py_lower_type _ _ Hty) as (v & Hv & Hl).
  unfold _match_type, py_index, type_score_spec.
  rewrite Hv. bind_step. rewrite Hl. bind_step. rewrite Hpref. bind_step.
  simpl py_in. bind_step. rewrite existsb_strs.
  by destruct (existsb _ preferred).
Qed.

(** The preferred types are compared as they are, while the type of the
    opportunity is lower-cased first: a profile whose preferred types all
    carry an upper-case letter gets 0 on every opportunity. *)
Theorem _match_type_upper_case_never_matches (opp profile : dict)
        (preferred : list string) (x : pyfloat) :
  profile !! "preferred_types" = Some (VList (VStr <$> preferred)) →
  Forall (λ p, has_upper p = true) preferred →
  _match_type opp profile = Ok x →
  x = Fin 0.
Proof.
  intros Hpref Hup H. unfold _match_type, py_index in H.
  rewrite Hpref in H.
  apply bind_Ok in H as (v & _ & H). apply bind_Ok in H as (t & Ht & H).
  bind_step in H. simpl py_in in H. bind_step in H.
  rewrite existsb_strs in H.
  assert (Hno : existsb (String.eqb t) preferred = false).
  { destruct v; try done. injection Ht as <-.
    apply not_true_iff_false. rewrite existsb_exists.
    intros (p & Hin & Heq%String.eqb_eq). subst p.
    rewrite Forall_forall in Hup.
    specialize (Hup (lower s)). rewrite lower_no_upper in Hup.
    assert (false = true); [|done]. apply Hup. by apply list_elem_of_In. }
  rewrite Hno in H. by injection H as <-.
Qed.

(** ** The experience factor *)

(** The tiers are tried in order and the first that matches decides: once
    the description names an entry-level word the score is 100 for at most
    two years of experience and 50 above, whatever else the description or
    the requirements say. *)
Theorem _match_experience_entry_tier_first (opp profile : dict)
        (description : string) (years : pyfloat) :
  opt_str_field opp "description" (Some description) →
  field_ok opp "requirements" is_str_list = true →
  profile !! "experience_years" = Some (VNum years) →
  any_in ["entry level"; "junior"; "internship"; "graduate"]
         (lower description) = true →
  _match_experience opp profile
  = Ok (if fleb years (Fin 2) then Fin 100 else Fin 50).
Proof.
  intros Hd [reqs Hreqs]%(join_field_total " ") He Hany.
  destruct (py_lower_opt_str _ _ _ Hd) as (v & Hv & Hl).
  unfold _match_experience, py_index.
  rewrite Hv. bind_step. rewrite Hl. bind_step. rewrite Hreqs. bind_step.
  rewrite He. bind_step. simpl default.
  by rewrite (any_in_app_l _ _ (" " ++ lower reqs) Hany).
Qed.

(** Without a description and without requirements no tier matches, and the
    factor is the neutral 50 whatever the profile holds as experience. *)
Theorem _match_experience_neutral (opp profile : dict) (years : value) :
  opt_str_field opp "description" None →
  opp !! "requirements" = None ∨ opp !! "requirements" = Some (VList []) →
  profile !! "experience_years" = Some years →
  _match_experience opp profile = Ok (Fin 50).
Proof.
  intros Hd Hreq He.
  destruct (py_lower_opt_str _ _ _ Hd) as (v & Hv & Hl).
  unfold _match_experience, py_index, py_get_default.
  rewrite Hv. bind_step. rewrite Hl. bind_step.
  rewrite He. by destruct Hreq as [-> | ->].
Qed.

(** ** The company factor *)

(** The company factor is the neutral 50 when the profile names no target
    company; otherwise it is 100 when some target, lower-cased, occurs in the
    lower-cased company of the opportunity (a missing company counting as the
    empty string), and 0 when none does. *)
Theorem _match_company_typed (opp profile : dict) (targets : list string)
        (company : option string) :
  profile !! "target_companies" = Some (VList (VStr <$> targets)) →
  opt_str_field opp "company" company →
  _match_company opp profile = Ok (Fin (company_score_spec targets company)).
Proof.
  intros Ht Hc. destruct (py_lower_opt_str _ _ _ Hc) as (v & Hv & Hl).
  unfold _match_company, py_index.
  rewrite Ht. bind_step. rewrite py_truthy_list. bind_step.
  destruct targets as [|t targets]; [done|].
  assert (Hspec : company_score_spec (t :: targets) company
                  = if existsb (λ t, str_contains (lower t)
                                       (lower (default "" company)))
                               (t :: targets)
                    then 100 else 0) by done.
  rewrite Hspec. clear Hspec.
  assert (Hne : bool_decide (VStr <$> t :: targets = []) = false) by done.
  rewrite Hne. clear Hne. generalize (t :: targets). intros ts.
  cbn [negb]. rewrite Hv. bind_step. rewrite Hl. bind_step.
  simpl py_iter. bind_step. rewrite mapR_py_lower_strs. bind_step.
  rewrite existsb_fmap. by destruct (existsb _ ts).
Qed.

(** ** The keyword factor *)

Lemma text_field_get (d : dict) (k s : string) :
  text_field d k s → py_get_default d k (VStr "") = VStr s.
Proof. unfold py_get_default. by intros [-> | [-> ->]]. Qed.

Lemma strs_field_get (d : dict) (k : string) (l : list string) :
  strs_field d k l → py_get_default d k (VList []) = VList (VStr <$> l).
Proof. unfold py_get_default. by intros [-> | [-> ->]]. Qed.

Lemma length_filter_lower (text : string) (kws : list string) :
  length (filter (λ kw, str_contains kw text) (lower <$> kws))
  = keyword_hits kws text.
Proof.
  unfold keyword_hits. induction kws as [|kw kws IH]; csimpl; [done|].
  rewrite !filter_cons. case_decide; simpl; by rewrite IH.
Qed.

Lemma Qdiv_cancel (x y : Q) : 0 < y → x / y * y == x.
Proof.
  intros Hy. rewrite Qmult_comm. apply Qmult_div_r.
  intros Hz. rewrite Hz in Hy. lra.
Qed.

Lemma ratio_facts (h n : nat) :
  (h ≤ n)%nat → (0 < n)%nat →
  let q := inject_Z (Z.of_nat h) / inject_Z (Z.of_nat n) * 100 in
  (q == 100 ↔ h = n) ∧ (q == 0 ↔ h = 0%nat).
Proof.
  intros Hle Hn q. subst q.
  assert (HN : 0 < inject_Z (Z.of_nat n)).
  { change 0 with (inject_Z 0). rewrite <- Zlt_Qlt. lia. }
  pose proof (Qdiv_cancel (inject_Z (Z.of_nat h)) _ HN) as Hdiv.
  pose proof (Qdiv_cancel (inject_Z (Z.of_nat n)) _ HN) as Hone.
  split; split.
  - intros Hq.
    assert (He : inject_Z (Z.of_nat h) / inject_Z (Z.of_nat n) == 1) by lra.
    rewrite He in Hdiv.
    assert (HNH : inject_Z (Z.of_nat n) == inject_Z (Z.of_nat h)) by lra.
    apply (proj1 (inject_Z_injective _ _)) in HNH.
    by apply Nat2Z.inj in HNH.
  - intros ->.
    assert (He : inject_Z (Z.of_nat n) / inject_Z (Z.of_nat n) == 1).
    { apply (Qmult_inj_r _ _ (inject_Z (Z.of_nat n))); [lra|].
      rewrite Hone. lra. }
    rewrite He. lra.
  - intros Hq.
    assert (He : inject_Z (Z.of_nat h) / inject_Z (Z.of_nat n) == 0) by lra.
    rewrite He in Hdiv.
    assert (H0 : inject_Z (Z.of_nat h) == inject_Z 0)
      by (change (inject_Z 0) with 0; lra).
    apply (proj1 (inject_Z_injective _ _)) in H0.
    by apply (Nat2Z.inj h 0) in H0.
  - intros ->. change (inject_Z (Z.of_nat 0)) with 0. unfold Qdiv. lra.
Qed.

(** The keyword factor is the neutral 50 for a profile without keywords.
    Otherwise it is 100 times the share of keyword entries that occur,
    lower-cased, in the lower-cased title, description and skills: 100
    exactly when every entry occurs and 0 exactly when none does. *)
Theorem _match_keywords_typed (opp profile : dict) (kws : list string)
        (title description : string) (skills : list string) :
  profile !! "keywords" = Some (VList (VStr <$> kws)) →
  text_field opp "title" title →
  text_field opp "description" description →
  strs_field opp "skills" skills →
  let hits := keyword_hits kws (keyword_text title description skills) in
  (kws = [] → _match_keywords opp profile = Ok (Fin 50)) ∧
  (kws ≠ [] →
   ∃ q, _match_keywords opp profile = Ok (Fin q) ∧
        q == inject_Z (Z.of_nat hits) / inject_Z (Z.of_nat (length kws)) * 100 ∧
        (hits ≤ length kws)%nat ∧
        (q == 100 ↔ hits = length kws) ∧
        (q == 0 ↔ hits = 0%nat)).
Proof.
  intros Hk Ht%text_field_get Hd%text_field_get Hs%strs_field_get hits.
  unfold _match_keywords, py_index. rewrite Hk. bind_step.
  rewrite py_truthy_list. bind_step. split.
  - by intros ->.
  - intros Hne.
    assert (Hb : bool_decide (VStr <$> kws = []) = false).
    { apply bool_decide_eq_false. by destruct kws. }
    rewrite Hb. cbn [negb]. rewrite Hs, py_join_strs. bind_step.
    rewrite Ht, Hd.
    change (VList [VStr title; VStr description;
                   VStr (String.concat " " skills)])
      with (VList (VStr <$> [title; description; String.concat " " skills])).
    rewrite py_join_strs. bind_step.
    simpl py_iter. bind_step. rewrite mapR_py_lower_strs. bind_step.
    assert (Hb' : bool_decide (lower <$> kws = []) = false).
    { apply bool_decide_eq_false. by destruct kws. }
    rewrite Hb'. rewrite length_filter_lower, length_fmap.
    fold (keyword_text title description skills). fold hits.
    assert (Hn : (0 < length kws)%nat) by (destruct kws; simpl; [done | lia]).
    assert (Hle : (hits ≤ length kws)%nat) by apply length_filter.
    unfold py_truediv.
    destruct (Z.of_nat (length kws) =? 0)%Z eqn:Ez;
      [apply Z.eqb_eq in Ez; lia|].
    bind_step. eexists. split; [reflexivity|]. split; [reflexivity|].
    split; [done|]. by apply ratio_facts.
Qed.

(** ** The score as a whole *)

Lemma clamp_below (m b : Q) :
  0 <= m → m <= b → b <= 100 →
  ∃ q, py_max (Fin 0) (py_min (Fin 100) (Fin m)) = Fin q ∧ 0 <= q ∧ q <= b.
Proof.
  intros H0 Hb H100.
  destruct (clamp_in_range (Fin m)) as (q & Hq & Hq0 & _).
  pose proof (clamp_id m H0 ltac:(lra)) as Hid. rewrite Hq in Hid.
  simpl in Hid. exists q. split; [done|]. split; lra.
Qed.

Lemma below_threshold (q b : Q) (min_score : pyfloat) :
  q <= b → fltb (Fin b) min_score = true → fleb min_score (Fin q) = false.
Proof.
  intros Hq. destruct min_score as [| | |m]; simpl; try done.
  intros Hlt%negb_true_iff%Qle_bool_false.
  apply not_true_iff_false. rewrite Qle_bool_iff. lra.
Qed.

Section ScoreFacts.

Variable encode : string → list Q.
Variable np_sqrt : Q → Q.

(** Whatever the provider and the norm return, a similarity of [nan] or an
    infinity included, a score that comes back is a finite number between 0
    and 100. *)
Theorem score_always_in_range (opp profile : dict) (x : pyfloat) :
  calculate_match_score encode np_sqrt opp profile = Ok x →
  ∃ q, x = Fin q ∧ 0 <= q ∧ q <= 100.
Proof.
  unfold calculate_match_score. intros H.
  apply bind_Ok in H as ([scores weights] & _ & H). simpl in H.
  apply bind_Ok in H as (total & _ & H). injection H as <-.
  apply clamp_in_range.
Qed.

Lemma factor_lists_delete (k : string) (opp profile : dict) :
  k ∉ factor_keys →
  factor_lists encode np_sqrt (delete k opp) profile
  = factor_lists encode np_sqrt opp profile.
Proof.
  intros Hk. unfold factor_keys in Hk.
  repeat (apply not_elem_of_cons in Hk as [? Hk]).
  unfold factor_lists, skill_factor, _match_location, _match_type,
    _match_experience, _match_company, _match_keywords,
    py_get, py_get_default, py_index.
  by rewrite !lookup_delete_ne by done.
Qed.

(** The score depends on the ten keys of the opportunity that the scorers
    read and on nothing else: adding, changing or removing any other entry
    (a source URL, a deadline, an earlier match score) leaves it as it
    was. *)
Theorem score_ignores_other_keys (k : string) (v : value)
        (opp profile : dict) :
  k ∉ score_keys →
  calculate_match_score encode np_sqrt (<[k := v]> opp) profile
  = calculate_match_score encode np_sqrt opp profile ∧
  calculate_match_score encode np_sqrt (delete k opp) profile
  = calculate_match_score encode np_sqrt opp profile.
Proof.
  intros Hk. unfold score_keys in Hk.
  apply not_elem_of_app in Hk as [Hf Hm].
  repeat (apply not_elem_of_cons in Hm as [? Hm]).
  unfold calculate_match_score.
  rewrite factor_lists_insert, factor_lists_delete by done.
  unfold _apply_modifiers, py_get_default, py_get.
  by rewrite !lookup_insert_ne, !lookup_delete_ne by done.
Qed.

(** When the skill factor is left out, because the opportunity lists no
    skills or the profile has no skills embedding, the score cannot exceed
    60: such a pair stays below every threshold above 60, the default 70
    among them. *)
Theorem score_without_skill_factor (opp profile : dict) (x : pyfloat) :
  ¬ (has_skills opp ∧ has_skills_embedding profile) →
  calculate_match_score encode np_sqrt opp profile = Ok x →
  ∃ q, x = Fin q ∧ 0 <= q ∧ q <= 60 ∧
       ∀ min_score, fltb (Fin 60) min_score = true →
                    fleb min_score x = false.
Proof.
  intros Hno H. unfold calculate_match_score in H.
  apply bind_Ok in H as ([scores weights] & Hf & H). simpl in H.
  apply bind_Ok in H as (m & Hm & H). injection H as <-.
  destruct (factor_lists_inv _ _ _ _ _ _ Hf)
    as (l & t & e & c & k & _ & (Hl & Ht & He & Hc & Hk) & Hcases).
  destruct Hcases as [(H1 & H2 & _) | (_ & -> & ->)]; [by destruct Hno|].
  assert (∃ a, weighted_total [Fin l; Fin t; Fin e; Fin c; Fin k]
                 [Fin 0.20; Fin 0.15; Fin 0.10; Fin 0.10; Fin 0.05] = Fin a ∧
               0 <= a ∧ a <= 60) as (a & Ha & Ha0 & Ha1).
  { unfold weighted_total, py_sum. simpl.
    eexists. split; [reflexivity|]. split; lra. }
  rewrite Ha in Hm.
  destruct (_apply_modifiers_Ok _ _ _ _ Hm) as (still_open & _ & ->).
  assert (∃ m', (if still_open then Fin a else fmul (Fin a) (Fin 0.5)) = Fin m'
                ∧ 0 <= m' ∧ m' <= 60) as (m' & -> & Hm0 & Hm1).
  { destruct still_open; simpl; eexists; (split; [reflexivity|]); split; lra. }
  destruct (clamp_below m' 60) as (q & -> & Hq0 & Hq1); [lra..|].
  exists q. do 3 (split; [done|]).
  intros min_score. by apply below_threshold.
Qed.

(** Scoring wants a profile built by [create_user_profile]: handed the raw
    user map, which has no [preferred_locations] and no [preferred_types],
    it raises [KeyError] on every opportunity record. *)
Theorem score_on_raw_user_data_raises (opp user_data : dict) :
  user_data !! "preferred_locations" = None →
  user_data !! "preferred_types" = None →
  user_data !! "skills_embedding" = None →
  field_ok user_data "remote_only" is_bool = true →
  opportunity_record opp = true →
  calculate_match_score encode np_sqrt opp user_data = Raise KeyError.
Proof.
  intros Hpl Hpt Hse Hro Hopp.
  unfold opportunity_record in Hopp. rewrite !andb_true_iff in Hopp.
  destruct Hopp as (((((((((_ & _) & Hty) & Hl) & Hr) & _) & _) & Hsk) & _) & _).
  assert (Hskill : skill_factor encode np_sqrt opp user_data = Ok ([], [])).
  { unfold skill_factor, py_get. rewrite Hse. simpl.
    apply field_ok_cases in Hsk as [-> | (v & -> & Hv)]; [done|].
    apply is_str_list_inv in Hv as [s ->]. simpl.
    by rewrite andb_false_r. }
  destruct (opt_bool_truthy_total _ _ Hr) as [r Hrt].
  destruct (opt_str_lower_total _ _ "" Hl) as (lv & ls & Hlv & Hls).
  destruct (opt_str_lower_total _ _ "job" Hty) as (tv & ts & Htv & Hts).
  unfold calculate_match_score, factor_lists. rewrite Hskill. bind_step.
  unfold _match_location, py_index, py_and_cond.
  apply field_ok_cases in Hro as [-> | (rv & -> & Hrv)]; [done|].
  destruct rv as [|ro| | | |]; try done. bind_step. simpl py_truthy.
  bind_step. rewrite Hrt, Hlv. destruct ro; bind_step.
  - destruct r; bind_step.
    + unfold _match_type, py_index. rewrite Htv. bind_step.
      rewrite Hts. bind_step. by rewrite Hpt.
    + rewrite Hls. bind_step. by rewrite Hpl.
  - rewrite Hls. bind_step. by rewrite Hpl.
Qed.

End ScoreFacts.

(** ** Cosine similarity, continued *)

Lemma dot_comm (u v : list Q) : dot u v == dot v u.
Proof.
  revert v. induction u as [|x u IH]; intros [|y v]; simpl; try reflexivity.
  rewrite IH. ring.
Qed.

Lemma finf_mul_feq (pos : bool) (a a' : Q) :
  a == a' → feq (finf_mul pos a) (finf_mul pos a').
Proof.
  intros Ha. unfold finf_mul, Qsgn_pos, Qsgn_neg.
  assert (H1 : Qle_bool a 0 = Qle_bool a' 0).
  { apply Bool.eq_true_iff_eq. rewrite !Qle_bool_iff. by rewrite Ha. }
  assert (H2 : Qle_bool 0 a = Qle_bool 0 a').
  { apply Bool.eq_true_iff_eq. rewrite !Qle_bool_iff. by rewrite Ha. }
  rewrite H1, H2.
  by destruct (Qle_bool a' 0), (Qle_bool 0 a'), pos.
Qed.

Lemma np_div_feq (a a' b b' : Q) :
  a == a' → b == b' → feq (np_div (Fin a) (Fin b)) (np_div (Fin a') (Fin b')).
Proof.
  intros Ha Hb. simpl.
  assert (Hz : Qeq_bool b 0 = Qeq_bool b' 0).
  { apply Bool.eq_true_iff_eq. rewrite !Qeq_bool_iff. by rewrite Hb. }
  rewrite Hz. destruct (Qeq_bool b' 0) eqn:E.
  - by apply finf_mul_feq.
  - simpl. apply Qeq_bool_neq in E. by rewrite Ha, Hb.
Qed.

Section CosineFacts.

Variable np_sqrt : Q → Q.

(** Cosine similarity wants two vectors of one length and raises
    [ValueError] otherwise.  On such vectors it never raises, not even when a
    norm is zero, and it is the same in both directions. *)
Theorem _cosine_similarity_facts (u v : list Q) :
  (length u ≠ length v →
   _cosine_similarity np_sqrt u v = Raise ValueError) ∧
  (length u = length v →
   ∃ s s',
     _cosine_similarity np_sqrt u v = Ok s ∧
     _cosine_similarity np_sqrt v u = Ok s' ∧
     feq s s').
Proof.
  split.
  - intros Hne%Nat.eqb_neq. unfold _cosine_similarity, np_dot.
    by rewrite Hne.
  - intros Heq. unfold _cosine_similarity, np_dot.
    rewrite Heq, Nat.eqb_refl. bind_step.
    eexists _, _. split; [reflexivity|]. split; [reflexivity|].
    cbn [fmul]. apply np_div_feq; [apply dot_comm | ring].
Qed.

End CosineFacts.

(** ** Closed opportunities *)

Section ClosedFacts.

Variable encode : string → list Q.
Variable np_sqrt : Q → Q.
Hypothesis np_sqrt_tolerant : sqrt_tolerant np_sqrt.


End ClosedFacts.

(** ** Profiles, continued *)

(** Membership of a literal in a literal list. *)
Ltac in_literal_list :=
  repeat first [apply list_elem_of_here | apply list_elem_of_further].

Section ProfileFacts.

Variable encode : string → list Q.

Lemma create_user_profile_inv (user_data profile : dict) :
  create_user_profile encode user_data = Ok profile →
  ∃ base : dict,
    (∀ pk uk dflt, (pk, uk, dflt) ∈ profile_fields →
                   base !! pk = Some (py_get_default user_data uk dflt)) ∧
    (∀ k, is_Some (base !! k) → k ∈ profile_keys) ∧
    base !! "skills_text" = None ∧ base !! "skills_embedding" = None ∧
    base !! "interests_text" = None ∧ base !! "interests_embedding" = None ∧
    ∃ with_skills : dict,
      (∃ has_skills : bool,
         py_truthy (py_get_default user_data "skills" (VList []))
         = Ok has_skills ∧
         if has_skills then
           ∃ text, py_join ", " (py_get_default user_data "skills" (VList []))
                   = Ok text ∧
                   with_skills
                   = <["skills_embedding" := VArr (encode text)]>
                       (<["skills_text" := VStr text]> base)
         else with_skills = base) ∧
      (∃ has_interests : bool,
         py_truthy (py_get_default user_data "interests" (VList []))
         = Ok has_interests ∧
         if has_interests then
           ∃ text,
             py_join ", " (py_get_default user_data "interests" (VList []))
             = Ok text ∧
             profile
             = <["interests_embedding" := VArr (encode text)]>
                 (<["interests_text" := VStr text]> with_skills)
         else profile = with_skills).
Proof.
  unfold create_user_profile, py_index. intros H.
  rewrite lookup_insert_eq in H. bind_step in H.
  apply bind_Ok in H as (has_skills & Hts & H).
  apply bind_Ok in H as (p1 & Hp1 & H).
  set (base := <["skills" := _]> _) in *. exists base.
  assert (Hfields : ∀ pk uk dflt, (pk, uk, dflt) ∈ profile_fields →
                      base !! pk = Some (py_get_default user_data uk dflt)).
  { intros pk uk dflt Hin. unfold profile_fields in Hin.
    repeat (apply elem_of_cons in Hin as [[= -> -> ->] | Hin]; [done|]).
    by apply elem_of_nil in Hin. }
  assert (Hkeys : ∀ k, is_Some (base !! k) → k ∈ profile_keys).
  { intros k. unfold base, profile_keys.
    repeat (rewrite lookup_insert; case_decide;
            [subst k; intros _; in_literal_list|]).
    rewrite lookup_empty. by intros []. }
  do 2 (split; [done|]). do 4 (split; [done|]).
  assert (Hbi : base !! "interests"
                = Some (py_get_default user_data "interests" (VList [])))
    by done.
  clearbody base. exists p1. split.
  - exists has_skills. split; [done|]. destruct has_skills.
    + apply bind_Ok in Hp1 as (text & Ht & Hp1). injection Hp1 as <-. eauto.
    + by injection Hp1 as <-.
  - assert (Hp1i : p1 !! "interests" = base !! "interests").
    { destruct has_skills.
      - apply bind_Ok in Hp1 as (text & Ht & Hp1). injection Hp1 as <-.
        by rewrite !lookup_insert_ne.
      - by injection Hp1 as <-. }
    rewrite Hp1i, Hbi in H. bind_step in H.
    apply bind_Ok in H as (has_interests & Hti & H).
    exists has_interests. split; [done|]. destruct has_interests.
    + apply bind_Ok in H as (text & Ht & H). injection H as <-. eauto.
    + by injection H as <-.
Qed.

(** A built profile holds the ten user entries under their profile names,
    each with its default when the user left it out, at most four derived
    entries, and nothing else: unknown keys of the user map are dropped. *)
Theorem create_user_profile_fields (user_data profile : dict) :
  create_user_profile encode user_data = Ok profile →
  (∀ pk uk dflt, (pk, uk, dflt) ∈ profile_fields →
                 profile !! pk = Some (py_get_default user_data uk dflt)) ∧
  (∀ k, is_Some (profile !! k) → k ∈ profile_keys).
Proof.
  intros H. apply create_user_profile_inv in H
    as (base & Hfields & Hkeys & _ & _ & _ & _ & p1
        & (hs & _ & Hp1) & (hi & _ & Hp)).
  assert (Hpk : ∀ pk uk dflt, (pk, uk, dflt) ∈ profile_fields →
                  pk ≠ "skills_text" ∧ pk ≠ "skills_embedding" ∧
                  pk ≠ "interests_text" ∧ pk ≠ "interests_embedding").
  { intros pk uk dflt Hin. unfold profile_fields in Hin.
    repeat (apply elem_of_cons in Hin as [[= -> -> ->] | Hin]; [done|]).
    by apply elem_of_nil in Hin. }
  assert (H1 : (∀ pk uk dflt, (pk, uk, dflt) ∈ profile_fields →
                  p1 !! pk = Some (py_get_default user_data uk dflt)) ∧
               (∀ k, is_Some (p1 !! k) → k ∈ profile_keys)).
  { destruct hs; [destruct Hp1 as (text & _ & ->) | by subst p1]. split.
    - intros pk uk dflt Hin. destruct (Hpk _ _ _ Hin) as (? & ? & _).
      rewrite !lookup_insert_ne by done. by apply Hfields.
    - intros k. rewrite !lookup_insert.
      repeat (case_decide; [subst k; intros _; unfold profile_keys;
                            in_literal_list|]).
      apply Hkeys. }
  destruct H1 as [Hf1 Hk1].
  destruct hi; [destruct Hp as (text & _ & ->) | by subst profile]. split.
  - intros pk uk dflt Hin. destruct (Hpk _ _ _ Hin) as (_ & _ & ? & ?).
    rewrite !lookup_insert_ne by done. by apply Hf1.
  - intros k. rewrite !lookup_insert.
    repeat (case_decide; [subst k; intros _; unfold profile_keys;
                          in_literal_list|]).
    apply Hk1.
Qed.

(** Skills handed over as one string instead of a list are not refused: the
    string is taken character by character, and what is embedded is its
    characters joined by commas. *)
Theorem create_user_profile_string_skills (user_data profile : dict)
        (s : string) :
  user_data !! "skills" = Some (VStr s) → s ≠ "" →
  create_user_profile encode user_data = Ok profile →
  profile !! "skills_text" = Some (VStr (String.concat ", " (chars s))) ∧
  profile !! "skills_embedding"
  = Some (VArr (encode (String.concat ", " (chars s)))).
Proof.
  intros Hs Hne H. apply create_user_profile_inv in H
    as (base & _ & _ & _ & _ & _ & _ & p1
        & (hs & Hts & Hp1) & (hi & _ & Hp)).
  unfold py_get_default in Hts, Hp1. rewrite Hs in Hts, Hp1. simpl in Hts.
  assert (hs = true) as ->.
  { injection Hts as <-. destruct s; [done|]. done. }
  destruct Hp1 as (text & Ht & ->).
  assert (text = String.concat ", " (chars s)) as ->.
  { unfold py_join in Ht. simpl in Ht. rewrite mapR_as_str_strs in Ht.
    by injection Ht as <-. }
  destruct hi; [destruct Hp as (t & _ & ->) | subst profile];
    split; repeat (rewrite lookup_insert_ne by done);
    by rewrite lookup_insert_eq.
Qed.

End ProfileFacts.

(** ** Ranking, continued *)

Section SortedAgain.
Context {A : Type}.
Implicit Types (x : pyfloat * A) (l : list (pyfloat * A)).

Lemma stable_sort_sorted_id l :
  Forall finite_key l → StronglySorted (@key_le A) l → stable_sort l = l.
Proof.
  intros Hfin Hs. induction Hs as [|x l Hs IH Hx]; simpl; [done|].
  apply Forall_cons in Hfin as [[qx Hqx] Hfin]. rewrite IH by done.
  destruct l as [|y l]; [done|]. simpl.
  apply Forall_cons in Hx as [Hxy _].
  apply Forall_cons in Hfin as [[qy Hqy] _].
  unfold key_le in Hxy. rewrite Hqx, Hqy in *. simpl in *.
  by rewrite Hxy.
Qed.

(** Sorting a list that is already in non-increasing order changes
    nothing. *)
Lemma py_sorted_sorted_id l :
  Forall finite_key l → StronglySorted (flip (@key_le A)) l →
  py_sorted l true = l.
Proof.
  intros Hfin Hs. unfold py_sorted.
  rewrite stable_sort_sorted_id.
  - apply reverse_involutive.
  - by rewrite reverse_Permutation.
  - by apply (StronglySorted_reverse (flip key_le)).
Qed.

End SortedAgain.

Section RankFacts.

Variable encode : string → list Q.
Variable np_sqrt : Q → Q.

Lemma score_loop_fixed (opps : list nat) (profile : dict) (h : heap) :
  (∀ ref, ref ∈ opps →
     ∃ d s, h !! ref = Some d ∧
            calculate_match_score encode np_sqrt d profile = Ok s ∧
            d !! "match_score" = Some (VNum s)) →
  score_loop encode np_sqrt opps profile h = (h, Ok ()).
Proof.
  induction opps as [|opp rest IH]; intros Hall; simpl; [done|].
  destruct (Hall opp) as (d & s & Hd & Hs & Hms); [by left|].
  unfold deref. rewrite Hd, Hs.
  rewrite (insert_id d) by done. rewrite (insert_id h) by done.
  apply IH. intros ref Hin. apply Hall. by right.
Qed.

Lemma keyed_of_snd (f : nat → pyfloat) (L : list (pyfloat * nat)) :
  Forall (λ p, p.1 = f p.2) L → (λ ref, (f ref, ref)) <$> (snd <$> L) = L.
Proof.
  induction 1 as [|[k r] L Hp _ IH]; csimpl; [done|].
  simpl in Hp. by rewrite IH, Hp.
Qed.

(** Ranking a second time changes nothing: handed its own result and the
    store it left behind, [rank_opportunities] returns the same list and
    leaves the store as it is. *)
Theorem rank_opportunities_again (opps : list nat) (profile : dict)
        (h h' : heap) (ranked : list nat) :
  rank_opportunities encode np_sqrt opps profile h = (h', Ok ranked) →
  rank_opportunities encode np_sqrt ranked profile h' = (h', Ok ranked).
Proof.
  intros H. apply rank_opportunities_inv in H as (Hloop & Hne & Hr).
  set (f := match_score_of h') in *.
  set (keyed := (λ ref, (f ref, ref)) <$> opps) in *.
  set (S := py_sorted keyed true) in *.
  assert (Hperm : S ≡ₚ keyed) by apply py_sorted_perm.
  assert (HS : Forall (λ p : pyfloat * nat, p.1 = f p.2) S).
  { rewrite Hperm. apply keyed_Forall. }
  assert (Hscored : ∀ ref, ref ∈ opps →
            ∃ d s, h' !! ref = Some d ∧
                   calculate_match_score encode np_sqrt d profile = Ok s ∧
                   d !! "match_score" = Some (VNum s) ∧ f ref = s).
  { intros ref Hin.
    destruct (score_loop_spec _ _ _ _ _ _ Hloop ref) as [Hs _].
    destruct (Hs Hin) as (d & s & _ & Hscore & Hh').
    exists (<["match_score" := VNum s]> d), s. split; [done|].
    rewrite calculate_match_score_insert_score. split; [done|].
    split; [by rewrite lookup_insert_eq|].
    by destruct (match_score_of_scored _ _ _ _ Hh'). }
  assert (Hfin : Forall finite_key keyed).
  { subst keyed. apply Forall_fmap, Forall_forall. intros ref Hin.
    destruct (Hscored ref Hin) as (d & s & _ & Hscore & _ & Hf).
    destruct (calculate_match_score_range _ _ _ _ _ Hscore) as (q & -> & _).
    by exists q. }
  assert (HfinS : Forall finite_key S) by (by rewrite Hperm).
  assert (Hsorted : StronglySorted (flip key_le) S)
    by (by apply py_sorted_descending).
  assert (Hranked : ranked ≡ₚ opps).
  { rewrite Hr, Hperm. subst keyed. by rewrite (keyed_fmap_snd f). }
  clearbody S. clear Hperm Hfin. clearbody keyed.
  assert (Hin_opps : ∀ ref, ref ∈ ranked → ref ∈ opps).
  { intros ref Hin. by rewrite <- Hranked. }
  unfold rank_opportunities.
  rewrite score_loop_fixed.
  2:{ intros ref Hin%Hin_opps.
      destruct (Hscored ref Hin) as (d & s & ? & ? & ? & _). eauto. }
  bind_step.
  rewrite (mapR_ext_Ok _ (λ ref, (f ref, ref))).
  2:{ intros ref Hin%Hin_opps.
      destruct (Hscored ref Hin) as (d & s & Hd & _ & Hms & Hf).
      unfold match_score_key, deref, py_index. rewrite Hd. bind_step.
      rewrite Hms. bind_step. simpl. by rewrite Hf. }
  bind_step.
  assert (Hkeyed : (λ ref, (f ref, ref)) <$> ranked = S).
  { rewrite Hr. by apply keyed_of_snd. }
  rewrite Hkeyed, py_sorted_sorted_id by done. rewrite <- Hr.
  destruct ranked as [|top rest] eqn:Er.
  { apply Permutation_nil_l in Hranked. by subst. }
  bind_step. destruct (Hscored top) as (d & s & Hd & _ & Hms & _).
  { apply Hin_opps. by left. }
  unfold deref, py_index. rewrite Hd. bind_step. by rewrite Hms.
Qed.

Lemma score_loop_app (l1 l2 : list nat) (profile : dict) (h : heap) :
  score_loop encode np_sqrt (l1 ++ l2) profile h
  = match score_loop encode np_sqrt l1 profile h with
    | (h1, Ok _) => score_loop encode np_sqrt l2 profile h1
    | (h1, Raise e) => (h1, Raise e)
    end.
Proof.
  revert h. induction l1 as [|opp l1 IH]; intros h; simpl; [done|].
  destruct (deref h opp) as [d|]; [|done].
  destruct (calculate_match_score _ _ d profile); [apply IH | done].
Qed.

(** A failure part-way leaves the store half written.  If ranking a list
    succeeds, and the list is then extended by a record on which scoring
    raises, ranking the longer list raises the same error and leaves the
    store as the ranking of the shorter list left it, every earlier record
    carrying its new score. *)
Theorem rank_failure_keeps_earlier_scores (opps rest : list nat) (bad : nat)
        (profile d : dict) (h h' : heap) (ranked : list nat) (e : exn) :
  rank_opportunities encode np_sqrt opps profile h = (h', Ok ranked) →
  h' !! bad = Some d →
  calculate_match_score encode np_sqrt d profile = Raise e →
  rank_opportunities encode np_sqrt (opps ++ bad :: rest) profile h
  = (h', Raise e) ∧
  ∀ ref, ref ∈ opps →
         ∃ d0 s, h !! ref = Some d0 ∧
                 h' !! ref = Some (<["match_score" := VNum s]> d0).
Proof.
  intros H Hd He. apply rank_opportunities_inv in H as (Hloop & _ & _).
  split.
  - unfold rank_opportunities. rewrite score_loop_app, Hloop. simpl.
    unfold deref. by rewrite Hd, He.
  - intros ref Hin.
    destruct (score_loop_spec _ _ _ _ _ _ Hloop ref) as [Hs _].
    destruct (Hs Hin) as (d0 & s & Hd0 & _ & Hh'). eauto.
Qed.

End RankFacts.

(** * Worked instances of the further properties *)

Lemma _match_type_typed_witness :
  sample_profile !! "preferred_types"
  = Some (VList (VStr <$> ["job"; "internship"])) ∧
  opt_str_field opp_austin "type" None ∧
  _match_type opp_austin sample_profile
  = Ok (Fin (type_score_spec None ["job"; "internship"])).
Proof.
  assert (H1 : sample_profile !! "preferred_types"
               = Some (VList (VStr <$> ["job"; "internship"])))
    by (vm_compute; reflexivity).
  assert (H2 : opt_str_field opp_austin "type" None)
    by (left; vm_compute; reflexivity).
  split; [exact H1|]. split; [exact H2|].
  exact (_match_type_typed opp_austin sample_profile None
           ["job"; "internship"] H1 H2).
Defined.

Lemma _match_type_upper_case_never_matches_witness :
  sample_profile_capitals !! "preferred_types"
  = Some (VList (VStr <$> ["Internship"])) ∧
  Forall (λ p, has_upper p = true) ["Internship"] ∧
  _match_type opp_internship sample_profile_capitals = Ok (Fin 0) ∧
  Fin 0 = Fin 0.
Proof.
  assert (H1 : sample_profile_capitals !! "preferred_types"
               = Some (VList (VStr <$> ["Internship"])))
    by (vm_compute; reflexivity).
  assert (H2 : Forall (λ p, has_upper p = true) ["Internship"])
    by (repeat constructor).
  assert (H3 : _match_type opp_internship sample_profile_capitals
               = Ok (Fin 0))
    by (vm_compute; reflexivity).
  split; [exact H1|]. split; [exact H2|]. split; [exact H3|].
  exact (_match_type_upper_case_never_matches opp_internship
           sample_profile_capitals ["Internship"] (Fin 0) H1 H2 H3).
Defined.

Lemma _match_experience_entry_tier_first_witness :
  opt_str_field opp_austin "description" (Some "junior role") ∧
  field_ok opp_austin "requirements" is_str_list = true ∧
  sample_profile !! "experience_years" = Some (VNum (Fin 1)) ∧
  any_in ["entry level"; "junior"; "internship"; "graduate"]
         (lower "junior role") = true ∧
  _match_experience opp_austin sample_profile
  = Ok (if fleb (Fin 1) (Fin 2) then Fin 100 else Fin 50).
Proof.
  assert (H1 : opt_str_field opp_austin "description" (Some "junior role"))
    by (vm_compute; reflexivity).
  assert (H2 : field_ok opp_austin "requirements" is_str_list = true)
    by (vm_compute; reflexivity).
  assert (H3 : sample_profile !! "experience_years" = Some (VNum (Fin 1)))
    by (vm_compute; reflexivity).
  assert (H4 : any_in ["entry level"; "junior"; "internship"; "graduate"]
                      (lower "junior role") = true)
    by (vm_compute; reflexivity).
  repeat (split; [assumption|]).
  exact (_match_experience_entry_tier_first opp_austin sample_profile
           "junior role" (Fin 1) H1 H2 H3 H4).
Defined.

Lemma _match_experience_neutral_witness :
  opt_str_field opp_null_description "description" None ∧
  (opp_null_description !! "requirements" = None ∨
   opp_null_description !! "requirements" = Some (VList [])) ∧
  sample_profile !! "experience_years" = Some (VNum (Fin 1)) ∧
  _match_experience opp_null_description sample_profile = Ok (Fin 50).
Proof.
  assert (H1 : opt_str_field opp_null_description "description" None)
    by (right; vm_compute; reflexivity).
  assert (H2 : opp_null_description !! "requirements" = None ∨
               opp_null_description !! "requirements" = Some (VList []))
    by (left; vm_compute; reflexivity).
  assert (H3 : sample_profile !! "experience_years" = Some (VNum (Fin 1)))
    by (vm_compute; reflexivity).
  repeat (split; [assumption|]).
  exact (_match_experience_neutral opp_null_description sample_profile
           (VNum (Fin 1)) H1 H2 H3).
Defined.

Lemma _match_company_typed_witness :
  sample_profile_capitals !! "target_companies"
  = Some (VList (VStr <$> ["ACME"])) ∧
  opt_str_field opp_austin "company" (Some "Acme") ∧
  _match_company opp_austin sample_profile_capitals
  = Ok (Fin (company_score_spec ["ACME"] (Some "Acme"))).
Proof.
  assert (H1 : sample_profile_capitals !! "target_companies"
               = Some (VList (VStr <$> ["ACME"])))
    by (vm_compute; reflexivity).
  assert (H2 : opt_str_field opp_austin "company" (Some "Acme"))
    by (vm_compute; reflexivity).
  split; [exact H1|]. split; [exact H2|].
  exact (_match_company_typed opp_austin sample_profile_capitals
           ["ACME"] (Some "Acme") H1 H2).
Defined.

Lemma _match_keywords_typed_witness :
  sample_profile !! "keywords" = Some (VList (VStr <$> ["ai"; "ml"])) ∧
  text_field opp_austin "title" "AI Engineer" ∧
  text_field opp_austin "description" "junior role" ∧
  strs_field opp_austin "skills" ["Python"] ∧
  let hits := keyword_hits ["ai"; "ml"]
                (keyword_text "AI Engineer" "junior role" ["Python"]) in
  (["ai"; "ml"] = [] → _match_keywords opp_austin sample_profile = Ok (Fin 50)) ∧
  (["ai"; "ml"] ≠ [] →
   ∃ q, _match_keywords opp_austin sample_profile = Ok (Fin q) ∧
        q == inject_Z (Z.of_nat hits)
             / inject_Z (Z.of_nat (length ["ai"; "ml"])) * 100 ∧
        (hits ≤ length ["ai"; "ml"])%nat ∧
        (q == 100 ↔ hits = length ["ai"; "ml"]) ∧
        (q == 0 ↔ hits = 0%nat)).
Proof.
  assert (H1 : sample_profile !! "keywords"
               = Some (VList (VStr <$> ["ai"; "ml"])))
    by (vm_compute; reflexivity).
  assert (H2 : text_field opp_austin "title" "AI Engineer")
    by (left; vm_compute; reflexivity).
  assert (H3 : text_field opp_austin "description" "junior role")
    by (left; vm_compute; reflexivity).
  assert (H4 : strs_field opp_austin "skills" ["Python"])
    by (left; vm_compute; reflexivity).
  repeat (split; [assumption|]).
  exact (_match_keywords_typed opp_austin sample_profile ["ai"; "ml"]
           "AI Engineer" "junior role" ["Python"] H1 H2 H3 H4).
Defined.

Lemma score_always_in_range_witness :
  calculate_match_score stub_encode stub_sqrt opp_austin sample_profile
  = Ok (Fin (185000000000000 # 2000000000000)) ∧
  ∃ q, Fin (185000000000000 # 2000000000000) = Fin q ∧ 0 <= q ∧ q <= 100.
Proof.
  assert (H : calculate_match_score stub_encode stub_sqrt opp_austin
                sample_profile
              = Ok (Fin (185000000000000 # 2000000000000)))
    by (vm_compute; reflexivity).
  split; [exact H|].
  exact (score_always_in_range stub_encode stub_sqrt opp_austin
           sample_profile _ H).
Defined.

Lemma score_ignores_other_keys_witness :
  ("source_url" ∉ score_keys) ∧
  calculate_match_score stub_encode stub_sqrt
    (<["source_url" := VStr "https://example.org/1"]> opp_austin)
    sample_profile
  = calculate_match_score stub_encode stub_sqrt opp_austin sample_profile ∧
  calculate_match_score stub_encode stub_sqrt
    (delete "source_url" opp_austin) sample_profile
  = calculate_match_score stub_encode stub_sqrt opp_austin sample_profile.
Proof.
  assert (H : "source_url" ∉ score_keys).
  { unfold score_keys, factor_keys. simpl.
    repeat (apply not_elem_of_cons; split; [done|]). apply not_elem_of_nil. }
  split; [exact H|].
  exact (score_ignores_other_keys stub_encode stub_sqrt "source_url"
           (VStr "https://example.org/1") opp_austin sample_profile H).
Defined.

Lemma score_without_skill_factor_witness :
  ¬ (has_skills opp_berlin ∧ has_skills_embedding sample_profile) ∧
  calculate_match_score stub_encode stub_sqrt opp_berlin sample_profile
  = Ok (Fin (740000000000 # 20000000000)) ∧
  ∃ q, Fin (740000000000 # 20000000000) = Fin q ∧ 0 <= q ∧ q <= 60 ∧
       ∀ min_score, fltb (Fin 60) min_score = true →
                    fleb min_score (Fin (740000000000 # 20000000000)) = false.
Proof.
  assert (H1 : ¬ (has_skills opp_berlin ∧ has_skills_embedding sample_profile)).
  { intros [Hs _]. unfold has_skills in Hs. vm_compute in Hs. discriminate. }
  assert (H2 : calculate_match_score stub_encode stub_sqrt opp_berlin
                 sample_profile
               = Ok (Fin (740000000000 # 20000000000)))
    by (vm_compute; reflexivity).
  split; [exact H1|]. split; [exact H2|].
  exact (score_without_skill_factor stub_encode stub_sqrt opp_berlin
           sample_profile _ H1 H2).
Defined.

Lemma score_on_raw_user_data_raises_witness :
  sample_user !! "preferred_locations" = None ∧
  sample_user !! "preferred_types" = None ∧
  sample_user !! "skills_embedding" = None ∧
  field_ok sample_user "remote_only" is_bool = true ∧
  opportunity_record opp_austin = true ∧
  calculate_match_score stub_encode stub_sqrt opp_austin sample_user
  = Raise KeyError.
Proof.
  assert (H1 : sample_user !! "preferred_locations" = None)
    by (vm_compute; reflexivity).
  assert (H2 : sample_user !! "preferred_types" = None)
    by (vm_compute; reflexivity).
  assert (H3 : sample_user !! "skills_embedding" = None)
    by (vm_compute; reflexivity).
  assert (H4 : field_ok sample_user "remote_only" is_bool = true)
    by (vm_compute; reflexivity).
  assert (H5 : opportunity_record opp_austin = true)
    by (vm_compute; reflexivity).
  repeat (split; [assumption|]).
  exact (score_on_raw_user_data_raises stub_encode stub_sqrt opp_austin
           sample_user H1 H2 H3 H4 H5).
Defined.

Lemma _cosine_similarity_facts_witness :
  (length [1; 0; 2] ≠ length [0; 1] →
   _cosine_similarity stub_sqrt_low [1; 0; 2] [0; 1] = Raise ValueError) ∧
  (length [1; 0; 2] = length [0; 1] →
   ∃ s s',
     _cosine_similarity stub_sqrt_low [1; 0; 2] [0; 1] = Ok s ∧
     _cosine_similarity stub_sqrt_low [0; 1] [1; 0; 2] = Ok s' ∧
     feq s s').
Proof.
  exact (_cosine_similarity_facts stub_sqrt_low [1; 0; 2] [0; 1]).
Defined.


Lemma create_user_profile_fields_witness :
  create_user_profile stub_encode sample_user = Ok sample_profile ∧
  (∀ pk uk dflt, (pk, uk, dflt) ∈ profile_fields →
                 sample_profile !! pk
                 = Some (py_get_default sample_user uk dflt)) ∧
  (∀ k, is_Some (sample_profile !! k) → k ∈ profile_keys).
Proof.
  assert (H : create_user_profile stub_encode sample_user = Ok sample_profile)
    by (vm_compute; reflexivity).
  split; [exact H|].
  exact (create_user_profile_fields stub_encode sample_user sample_profile H).
Defined.

Lemma create_user_profile_string_skills_witness :
  sample_user_string !! "skills" = Some (VStr "Go") ∧
  "Go" ≠ "" ∧
  create_user_profile stub_encode sample_user_string
  = Ok sample_profile_string ∧
  sample_profile_string !! "skills_text"
  = Some (VStr (String.concat ", " (chars "Go"))) ∧
  sample_profile_string !! "skills_embedding"
  = Some (VArr (stub_encode (String.concat ", " (chars "Go")))).
Proof.
  assert (H1 : sample_user_string !! "skills" = Some (VStr "Go"))
    by (vm_compute; reflexivity).
  assert (H2 : "Go" ≠ "") by discriminate.
  assert (H3 : create_user_profile stub_encode sample_user_string
               = Ok sample_profile_string)
    by (vm_compute; reflexivity).
  repeat (split; [assumption|]).
  exact (create_user_profile_string_skills stub_encode sample_user_string
           sample_profile_string "Go" H1 H2 H3).
Defined.

Lemma rank_opportunities_again_witness :
  rank_opportunities stub_encode stub_sqrt [0; 1; 2]%nat
    sample_profile sample_heap
  = (ranked_heap, Ok [1; 0; 2]%nat) ∧
  rank_opportunities stub_encode stub_sqrt [1; 0; 2]%nat
    sample_profile ranked_heap
  = (ranked_heap, Ok [1; 0; 2]%nat).
Proof.
  assert (H : rank_opportunities stub_encode stub_sqrt [0; 1; 2]%nat
                sample_profile sample_heap
              = (ranked_heap, Ok [1; 0; 2]%nat))
    by (vm_compute; reflexivity).
  split; [exact H|].
  exact (rank_opportunities_again stub_encode stub_sqrt [0; 1; 2]%nat
           sample_profile sample_heap ranked_heap [1; 0; 2]%nat H).
Defined.

Lemma rank_failure_keeps_earlier_scores_witness :
  rank_opportunities stub_encode stub_sqrt [1]%nat sample_profile
    sample_heap_bad
  = (ranked_heap_bad, Ok [1]%nat) ∧
  ranked_heap_bad !! 3%nat = Some opp_null_description ∧
  calculate_match_score stub_encode stub_sqrt opp_null_description
    sample_profile = Raise TypeError ∧
  rank_opportunities stub_encode stub_sqrt ([1]%nat ++ 3%nat :: [2]%nat)
    sample_profile sample_heap_bad
  = (ranked_heap_bad, Raise TypeError) ∧
  ∀ ref, ref ∈ [1]%nat →
         ∃ d0 s, sample_heap_bad !! ref = Some d0 ∧
                 ranked_heap_bad !! ref
                 = Some (<["match_score" := VNum s]> d0).
Proof.
  assert (H1 : rank_opportunities stub_encode stub_sqrt [1]%nat
                 sample_profile sample_heap_bad
               = (ranked_heap_bad, Ok [1]%nat))
    by (vm_compute; reflexivity).
  assert (H2 : ranked_heap_bad !! 3%nat = Some opp_null_description)
    by (vm_compute; reflexivity).
  assert (H3 : calculate_match_score stub_encode stub_sqrt
                 opp_null_description sample_profile = Raise TypeError)
    by (vm_compute; reflexivity).
  repeat (split; [assumption|]).
  exact (rank_failure_keeps_earlier_scores stub_encode stub_sqrt [1]%nat
           [2]%nat 3%nat sample_profile opp_null_description
           sample_heap_bad ranked_heap_bad [1]%nat TypeError H1 H2 H3).
Defined.
